(** * sparkly.reader: URL-driven construction of Spark reads

    A shallow embedding of [sparkly/reader.py] (class [SparklyReader]) and of
    the parts of the Python standard library it calls ([str] methods, [int],
    [dict], [urllib.parse], [json.dumps]).

    Python strings are modelled as [string] (sequences of 8-bit characters);
    everything below is exact on ASCII text.  Dictionaries are association
    lists kept in insertion order, because the order of a [dict] is observable
    in the code ([json.dumps], [items()], keyword expansion).  Calls into the
    Spark session are recorded in a log, so that "what was handed to the
    engine, and when" is a statement about the log. *)

From Stdlib Require Import String Ascii List ZArith Bool Lia DecimalString.
Import ListNotations.
Open Scope string_scope.
Open Scope Z_scope.

(* ===================================================================== *)
(** ** Python builtins on strings *)
(* ===================================================================== *)

Module Py.

Definition chr (n : nat) : ascii := ascii_of_nat n.
Definition str1 (c : ascii) : string := String c EmptyString.

(** The double-quote character, written through its code. *)
Definition dquote : string := str1 (chr 34).

Definition in_range (lo hi : nat) (c : ascii) : bool :=
  let n := nat_of_ascii c in (Nat.leb lo n && Nat.leb n hi)%bool.

Definition isdigit (c : ascii) : bool := in_range 48 57 c.
Definition isupper (c : ascii) : bool := in_range 65 90 c.
Definition islower (c : ascii) : bool := in_range 97 122 c.
Definition isalpha (c : ascii) : bool := (isupper c || islower c)%bool.

(** [str.isspace] on the ASCII range: TAB..CR, FS..US and the space. *)
Definition isspace (c : ascii) : bool :=
  (in_range 9 13 c || in_range 28 32 c)%bool.

Definition lower_char (c : ascii) : ascii :=
  if isupper c then chr (nat_of_ascii c + 32) else c.

(** [s.lower()] *)
Fixpoint lower (s : string) : string :=
  match s with
  | EmptyString => EmptyString
  | String c r => String (lower_char c) (lower r)
  end.

(** [c in s] for a one-character [c] *)
Fixpoint contains (c : ascii) (s : string) : bool :=
  match s with
  | EmptyString => false
  | String d r => if Ascii.eqb d c then true else contains c r
  end.

(** [s.partition(c)]: text before the first [c], whether [c] occurs, text
    after it.  When [c] does not occur Python returns [(s, '', '')]. *)
Fixpoint partition (c : ascii) (s : string) : string * bool * string :=
  match s with
  | EmptyString => (EmptyString, false, EmptyString)
  | String d r =>
      if Ascii.eqb d c then (EmptyString, true, r)
      else let '(a, found, b) := partition c r in (String d a, found, b)
  end.

(** [s.rpartition(c)]: split at the last [c].  When [c] does not occur Python
    returns [('', '', s)]. *)
Fixpoint rpartition (c : ascii) (s : string) : string * bool * string :=
  match s with
  | EmptyString => (EmptyString, false, EmptyString)
  | String d r =>
      let '(a, found, b) := rpartition c r in
      if found then (String d a, true, b)
      else if Ascii.eqb d c then (EmptyString, true, r)
      else (EmptyString, false, String d b)
  end.

(** [s.split(c)] for a one-character separator: never empty. *)
Fixpoint split (c : ascii) (s : string) : list string :=
  match s with
  | EmptyString => [EmptyString]
  | String d r =>
      if Ascii.eqb d c then EmptyString :: split c r
      else match split c r with
           | [] => [str1 d]
           | w :: ws => String d w :: ws
           end
  end.

(** [sep.join(l)] *)
Fixpoint join (sep : string) (l : list string) : string :=
  match l with
  | [] => EmptyString
  | [x] => x
  | x :: r => x ++ sep ++ join sep r
  end.

(** [s.replace(c, d)] for one-character arguments *)
Fixpoint replace_char (c d : ascii) (s : string) : string :=
  match s with
  | EmptyString => EmptyString
  | String e r => String (if Ascii.eqb e c then d else e) (replace_char c d r)
  end.

(** [s.replace(c, '')] *)
Fixpoint remove_char (c : ascii) (s : string) : string :=
  match s with
  | EmptyString => EmptyString
  | String e r => if Ascii.eqb e c then remove_char c r else String e (remove_char c r)
  end.

Fixpoint lstrip_by (p : ascii -> bool) (s : string) : string :=
  match s with
  | EmptyString => EmptyString
  | String c r => if p c then lstrip_by p r else s
  end.

Fixpoint rstrip_by (p : ascii -> bool) (s : string) : string :=
  match s with
  | EmptyString => EmptyString
  | String c r =>
      match rstrip_by p r with
      | EmptyString => if p c then EmptyString else str1 c
      | r' => String c r'
      end
  end.

(** [s.strip()] *)
Definition strip (s : string) : string := rstrip_by isspace (lstrip_by isspace s).

(** [str(n)] for an [int] *)
Definition str_of_int (n : Z) : string := NilZero.string_of_int (Z.to_int n).

Definition digit_value (c : ascii) : Z := Z.of_nat (nat_of_ascii c - 48).

(** The digit part of a decimal literal: digits, with single underscores
    allowed between two digits. *)
Fixpoint int_digits (s : string) (acc : Z) (after_digit : bool) : option Z :=
  match s with
  | EmptyString => if after_digit then Some acc else None
  | String c r =>
      if isdigit c then int_digits r (10 * acc + digit_value c) true
      else if Ascii.eqb c "_"
           then (if after_digit then int_digits r acc false else None)
           else None
  end.

(** [int(s)] for a [str]: surrounding whitespace, an optional sign, a decimal
    literal.  [None] stands for the [ValueError] Python raises. *)
Definition int_of_str (s : string) : option Z :=
  match strip s with
  | String "-" r => option_map Z.opp (int_digits r 0 false)
  | String "+" r => int_digits r 0 false
  | r => int_digits r 0 false
  end.

(** [s.isdigit()] (and [isascii()], which always holds here) *)
Fixpoint all_digits (s : string) : bool :=
  match s with
  | EmptyString => true
  | String c r => (isdigit c && all_digits r)%bool
  end.

Definition str_isdigit (s : string) : bool :=
  match s with EmptyString => false | _ => all_digits s end.

End Py.

(* ===================================================================== *)
(** ** Python dictionaries with string-like keys *)
(* ===================================================================== *)

Module Dict.

Section WithKey.
Context {K V : Type} (eqb : K -> K -> bool).

(** [d.get(k)] / [d[k]] *)
Fixpoint get (k : K) (d : list (K * V)) : option V :=
  match d with
  | [] => None
  | (k', v) :: r => if eqb k' k then Some v else get k r
  end.

(** [k in d] *)
Definition mem (k : K) (d : list (K * V)) : bool :=
  match get k d with Some _ => true | None => false end.

(** [d[k] = v]: an existing key keeps its position, a new key goes last. *)
Fixpoint set (k : K) (v : V) (d : list (K * V)) : list (K * V) :=
  match d with
  | [] => [(k, v)]
  | (k', v') :: r => if eqb k' k then (k', v) :: r else (k', v') :: set k v r
  end.

(** removal of a key *)
Fixpoint remove (k : K) (d : list (K * V)) : list (K * V) :=
  match d with
  | [] => []
  | (k', v') :: r => if eqb k' k then r else (k', v') :: remove k r
  end.

(** [d.pop(k, None)]: the value (or [None]) and the dictionary afterwards. *)
Definition pop (k : K) (d : list (K * V)) : option V * list (K * V) :=
  (get k d, remove k d).

(** [d.update(e)]: the items of [e] are stored in [d] in order. *)
Definition update (d e : list (K * V)) : list (K * V) :=
  fold_left (fun acc kv => set (fst kv) (snd kv) acc) e d.

(** [dict(pairs)] *)
Definition of_pairs (l : list (K * V)) : list (K * V) := update [] l.

Definition keys (d : list (K * V)) : list K := map fst d.

End WithKey.

End Dict.

(* ===================================================================== *)
(** ** Exceptions and fallible computations *)
(* ===================================================================== *)

(** The exception classes that can leave the reader.  [InvalidArgumentError]
    is [sparkly.exceptions.InvalidArgumentError]; the others are Python
    builtins.  For builtins raised by the standard library the message keeps
    the fixed part of CPython's text. *)
Inductive Exception : Type :=
| ValueError (msg : string)
| IndexError (msg : string)
| TypeError (msg : string)
| NotImplementedError (msg : string)
| InvalidArgumentError (msg : string)
| OtherError (cls msg : string).

Definition result (A : Type) : Type := (Exception + A)%type.

Definition Ok {A} (a : A) : result A := inr a.
Definition Raise {A} (e : Exception) : result A := inl e.

Definition rbind {A B} (m : result A) (k : A -> result B) : result B :=
  match m with
  | inl e => inl e
  | inr a => k a
  end.

(** [l[i]] on a list *)
Definition list_index {A} (l : list A) (i : nat) : result A :=
  match nth_error l i with
  | Some a => Ok a
  | None => Raise (IndexError "list index out of range")
  end.

(* ===================================================================== *)
(** ** Spark data types and Python values *)
(* ===================================================================== *)

(** [pyspark.sql.types]: atomic types are identified by their simple string
    ([string], [int], [binary], ...); a struct lists its named fields. *)
Inductive DataType : Type :=
| AtomicType (simple : string)
| ArrayType (elementType : DataType)
| MapType (keyType valueType : DataType)
| StructType (fields : list (string * DataType)).

(** [DataType.simpleString()] *)
Fixpoint simpleString (t : DataType) : string :=
  match t with
  | AtomicType s => s
  | ArrayType e => "array<" ++ simpleString e ++ ">"
  | MapType k v => "map<" ++ simpleString k ++ "," ++ simpleString v ++ ">"
  | StructType fs =>
      "struct<" ++
      Py.join "," (map (fun f => fst f ++ ":" ++ simpleString (snd f)) fs) ++ ">"
  end.

(** The Python values that travel through option dictionaries. *)
Inductive Value : Type :=
| VNone
| VBool (b : bool)
| VInt (n : Z)
| VStr (s : string)
| VType (t : DataType).

(** [bool(v)] *)
Definition truthy (v : Value) : bool :=
  match v with
  | VNone => false
  | VBool b => b
  | VInt n => negb (n =? 0)
  | VStr s => negb (String.eqb s "")
  | VType _ => true
  end.

(** [str(v)], as used by [str.format] *)
Definition str (v : Value) : string :=
  match v with
  | VNone => "None"
  | VBool true => "True"
  | VBool false => "False"
  | VInt n => Py.str_of_int n
  | VStr s => s
  | VType t => simpleString t
  end.

(** [int(v)] *)
Definition int (v : Value) : result Z :=
  match v with
  | VInt n => Ok n
  | VBool b => Ok (if b then 1 else 0)
  | VStr s =>
      match Py.int_of_str s with
      | Some n => Ok n
      | None => Raise (ValueError "invalid literal for int() with base 10")
      end
  | VNone | VType _ =>
      Raise (TypeError "int() argument must be a string, a bytes-like object or a real number")
  end.

(** A dictionary with [str] keys. *)
Definition dict : Type := list (string * Value).

Definition dget := @Dict.get string Value String.eqb.
Definition dmem := @Dict.mem string Value String.eqb.
Definition dset := @Dict.set string Value String.eqb.
Definition dpop := @Dict.pop string Value String.eqb.
Definition dremove := @Dict.remove string Value String.eqb.
Definition dupdate := @Dict.update string Value String.eqb.

(** [d.pop(k, None)] with Python's [None] as the default *)
Definition pop_or_none (k : string) (d : dict) : Value * dict :=
  match dpop k d with
  | (Some v, d') => (v, d')
  | (None, d') => (VNone, d')
  end.

(** Keyword expansion [f(k1=v1, ..., **extra)]: a keyword given twice is a
    [TypeError]. *)
Fixpoint kwargs (explicit extra : dict) : result dict :=
  match extra with
  | [] => Ok explicit
  | (k, v) :: r =>
      if dmem k explicit
      then Raise (TypeError ("got multiple values for keyword argument '" ++ k ++ "'"))
      else kwargs (explicit ++ [(k, v)])%list r
  end.

(* ===================================================================== *)
(** ** urllib.parse *)
(* ===================================================================== *)

(** [urlparse] and [parse_qsl] of CPython 3.11 on ASCII input.  Left out:
    the validation of a bracketed IPv6 literal, and the [;params] split,
    which [urlparse] performs only for schemes such as [http] and [ftp]. *)
Module Urllib.

Record ParseResult : Type := mkParseResult {
  scheme : string;
  netloc : string;
  path : string;
  query : string;
  fragment : string
}.

Definition scheme_char (c : ascii) : bool :=
  (Py.isalpha c || Py.isdigit c || Py.contains c "+-.")%bool.

Fixpoint all_scheme_chars (s : string) : bool :=
  match s with
  | EmptyString => true
  | String c r => (scheme_char c && all_scheme_chars r)%bool
  end.

Definition c0_control_or_space (c : ascii) : bool := Py.in_range 0 32 c.

(** [_splitnetloc(url, 2)] applied to the text after the leading [//]: the
    authority ends at the first of [/], [?], [#]. *)
Fixpoint splitnetloc (s : string) : string * string :=
  match s with
  | EmptyString => (EmptyString, EmptyString)
  | String c r =>
      if Py.contains c "/?#" then (EmptyString, s)
      else let '(a, b) := splitnetloc r in (String c a, b)
  end.

Definition urlparse (url0 : string) : result ParseResult :=
  let url := Py.lstrip_by c0_control_or_space url0 in
  let url := Py.remove_char (Py.chr 9) url in
  let url := Py.remove_char (Py.chr 13) url in
  let url := Py.remove_char (Py.chr 10) url in
  let '(sch, url) :=
    match Py.partition ":" url with
    | (String c0 pre, true, rest) =>
        if (Py.isalpha c0 && all_scheme_chars (String c0 pre))%bool
        then (Py.lower (String c0 pre), rest)
        else (EmptyString, url)
    | _ => (EmptyString, url)
    end in
  rbind
    (match url with
     | String "/" (String "/" after) =>
         let '(nl, rest) := splitnetloc after in
         if xorb (Py.contains "[" nl) (Py.contains "]" nl)
         then Raise (ValueError "Invalid IPv6 URL")
         else Ok (nl, rest)
     | _ => Ok (EmptyString, url)
     end)
    (fun '(nl, url) =>
       let '(url, frag) :=
         match Py.partition "#" url with
         | (a, true, b) => (a, b)
         | (a, false, _) => (a, EmptyString)
         end in
       let '(url, qry) :=
         match Py.partition "?" url with
         | (a, true, b) => (a, b)
         | (a, false, _) => (a, EmptyString)
         end in
       Ok (mkParseResult sch nl url qry frag)).

(** [_hostinfo]: host and port text of the authority, user info dropped. *)
Definition hostinfo (p : ParseResult) : string * string :=
  let '(_, _, hi) := Py.rpartition "@" (netloc p) in
  let '(_, have_open_br, bracketed) := Py.partition "[" hi in
  if have_open_br
  then let '(h, _, after) := Py.partition "]" bracketed in
       let '(_, _, pt) := Py.partition ":" after in (h, pt)
  else let '(h, _, pt) := Py.partition ":" hi in (h, pt).

(** [parsed_url.hostname]: [None] when empty, else lower-cased up to a zone
    suffix introduced by [%]. *)
Definition hostname (p : ParseResult) : Value :=
  match fst (hostinfo p) with
  | EmptyString => VNone
  | h => let '(name, percent, zone) := Py.partition "%" h in
         VStr (Py.lower name ++ (if percent then "%" else "") ++ zone)
  end.

(** [parsed_url.port]: [None] when absent, [ValueError] when not a decimal
    number in [0, 65535]. *)
Definition port (p : ParseResult) : result (option Z) :=
  match snd (hostinfo p) with
  | EmptyString => Ok None
  | pt =>
      if Py.str_isdigit pt
      then match Py.int_of_str pt with
           | Some n => if (n <=? 65535)
                       then Ok (Some n)
                       else Raise (ValueError "Port out of range 0-65535")
           | None => Raise (ValueError "Port could not be cast to integer value")
           end
      else Raise (ValueError "Port could not be cast to integer value")
  end.

Definition hex_value (c : ascii) : option nat :=
  if Py.isdigit c then Some (nat_of_ascii c - 48)%nat
  else if Py.in_range 97 102 c then Some (nat_of_ascii c - 87)%nat
  else if Py.in_range 65 70 c then Some (nat_of_ascii c - 55)%nat
  else None.

(** [unquote]: [%XX] escapes are replaced by the character they encode; a
    [%] not followed by two hexadecimal digits stays. *)
Fixpoint unquote (s : string) : string :=
  match s with
  | EmptyString => EmptyString
  | String c r =>
      match r with
      | String h1 (String h2 r') =>
          match (if Ascii.eqb c "%" then hex_value h1 else None), hex_value h2 with
          | Some a, Some b => String (Py.chr (16 * a + b)) (unquote r')
          | _, _ => String c (unquote r)
          end
      | _ => String c (unquote r)
      end
  end.

(** One [name=value] field of [parse_qsl] with the default
    [keep_blank_values=False]: fields without [=] or with an empty value are
    skipped. *)
Definition parse_field (name_value : string) : list (string * string) :=
  match Py.partition "=" name_value with
  | (_, false, _) => []
  | (_, true, EmptyString) => []
  | (n, true, v) =>
      [(unquote (Py.replace_char "+" " " n), unquote (Py.replace_char "+" " " v))]
  end.

Definition parse_qsl (qs : string) : list (string * string) :=
  flat_map parse_field (Py.split "&" qs).

End Urllib.

(* ===================================================================== *)
(** ** json.dumps *)
(* ===================================================================== *)

(** [json.dumps] with its defaults ([ensure_ascii], separators [", "] and
    [": "]) on the one shape the reader serialises: a dictionary from topic
    names to dictionaries from partition ids to offsets.  Integer keys are
    written as strings, as JSON requires. *)
Module Json.

Definition hex_digit (n : nat) : ascii :=
  if Nat.ltb n 10 then Py.chr (48 + n) else Py.chr (87 + n).

(** One character of a string literal: quote and backslash are escaped,
    control characters get their short or [\u00XX] form. *)
Definition escape_char (c : ascii) : string :=
  let n := nat_of_ascii c in
  if Nat.eqb n 34 then "\" ++ Py.dquote
  else if Nat.eqb n 92 then "\\"
  else if Nat.eqb n 8 then "\b"
  else if Nat.eqb n 12 then "\f"
  else if Nat.eqb n 10 then "\n"
  else if Nat.eqb n 13 then "\r"
  else if Nat.eqb n 9 then "\t"
  else if Py.in_range 32 126 c then Py.str1 c
  else "\u00" ++ String (hex_digit (n / 16)) (String (hex_digit (n mod 16)) EmptyString).

Fixpoint escape (s : string) : string :=
  match s with
  | EmptyString => EmptyString
  | String c r => escape_char c ++ escape r
  end.

Definition dumps_str (s : string) : string := Py.dquote ++ escape s ++ Py.dquote.

Definition dumps_object (items : list string) : string :=
  "{" ++ Py.join ", " items ++ "}".

(** [{partition: offset}] *)
Definition dumps_offsets (d : list (Z * Z)) : string :=
  dumps_object
    (map (fun kv => dumps_str (Py.str_of_int (fst kv)) ++ ": " ++ Py.str_of_int (snd kv)) d).

(** [{topic: {partition: offset}}] *)
Definition dumps (d : list (string * list (Z * Z))) : string :=
  dumps_object
    (map (fun kv => dumps_str (fst kv) ++ ": " ++ dumps_offsets (snd kv)) d).

End Json.

(* ===================================================================== *)
(** ** The Spark session, seen from the reader *)
(* ===================================================================== *)

(** The execution engine is external.  Every call the reader makes on the
    session, on a [DataFrameReader] or on a [DataFrame] is recorded with its
    arguments; the data frame a call returns is the description of how it was
    obtained.  Failures inside the engine are its own and are not modelled:
    a recorded call returns. *)
Module Spark.

(** A user function from bytes to a Python structure. *)
Definition Callable : Type := string -> Value.

Inductive Call : Type :=
| read_format (source : string)
    (** [spark.read.format(source)] *)
| reader_option (key : string) (value : Value)
    (** [reader.option(key, value)] *)
| reader_load
    (** [reader.load()] on a reader built by the calls before it *)
| read_load (options : dict)
    (** [spark.read.load] with the keywords [options] *)
| read_csv (options : dict)
    (** [spark.read.csv] with the keywords [options] *)
| table (name : string)
    (** [spark.table(name)] *)
| withColumn (colName : string) (f : Callable) (returnType : DataType) (arg : string)
    (** [df.withColumn(colName, F.udf(f, returnType=returnType)(F.col(arg)))] *)
| select (cols : list string)
    (** [df.select] with the column names [cols] *)
| coalesce (numPartitions : Value).
    (** [df.coalesce(numPartitions)] *)

(** A [DataFrameReader] under construction. *)
Record Reader : Type := mkReader {
  reader_source : string;
  reader_options : list (string * Value)
}.

Inductive Source : Type :=
| from_reader (r : Reader)
| from_load (options : dict)
| from_csv (options : dict)
| from_table (name : string).

(** A data frame: where it was loaded from and the calls applied since. *)
Record DataFrame : Type := mkDataFrame {
  origin : Source;
  applied : list Call
}.

(** Computations that call the engine: the log of calls so far goes in, the
    extended log and a value or an exception come out. *)
Definition Eff (A : Type) : Type := list Call -> list Call * result A.

Definition ret {A} (a : A) : Eff A := fun log => (log, Ok a).
Definition throw {A} (e : Exception) : Eff A := fun log => (log, Raise e).
Definition bind {A B} (m : Eff A) (k : A -> Eff B) : Eff B :=
  fun log =>
    match m log with
    | (log', inl e) => (log', inl e)
    | (log', inr a) => k a log'
    end.
Definition lift {A} (r : result A) : Eff A := fun log => (log, r).
Definition call (c : Call) : Eff unit := fun log => ((log ++ [c])%list, Ok tt).

(** Running a computation from an empty log. *)
Definition run {A} (m : Eff A) : list Call * result A := m [].

End Spark.

Import Spark.

Declare Scope eff_scope.
Delimit Scope eff_scope with eff.
Notation "x <- m ;; k" := (bind m (fun x => k))
  (at level 100, m at next level, right associativity) : eff_scope.
Notation "m ;;; k" := (bind m (fun _ => k))
  (at level 100, right associativity) : eff_scope.
Open Scope eff_scope.

Module Engine.

Definition format (source : string) : Eff Reader :=
  call (read_format source) ;;; ret (mkReader source []).

Definition option (key : string) (value : Value) (r : Reader) : Eff Reader :=
  call (reader_option key value) ;;;
  ret (mkReader (reader_source r) (reader_options r ++ [(key, value)])).

Definition load (r : Reader) : Eff DataFrame :=
  call reader_load ;;; ret (mkDataFrame (from_reader r) []).

Definition read_load (options : dict) : Eff DataFrame :=
  call (Spark.read_load options) ;;; ret (mkDataFrame (from_load options) []).

Definition read_csv (options : dict) : Eff DataFrame :=
  call (Spark.read_csv options) ;;; ret (mkDataFrame (from_csv options) []).

Definition table (name : string) : Eff DataFrame :=
  call (Spark.table name) ;;; ret (mkDataFrame (from_table name) []).

(** A method of a data frame: one call, recorded on the frame as well. *)
Definition method (c : Call) (df : DataFrame) : Eff DataFrame :=
  call c ;;; ret (mkDataFrame (origin df) (applied df ++ [c])).

End Engine.

(** The column names of a data frame whose source exposes [base]:
    [withColumn] replaces a column of the same name or appends a new one,
    [select] keeps the named columns, [coalesce] leaves them alone. *)
Definition apply_columns (cols : list string) (c : Call) : list string :=
  match c with
  | withColumn name _ _ _ =>
      if existsb (String.eqb name) cols then cols else (cols ++ [name])%list
  | select cs => cs
  | _ => cols
  end.

Definition columns (base : list string) (df : DataFrame) : list string :=
  fold_left apply_columns (applied df) base.

(* ===================================================================== *)
(** ** sparkly.reader.SparklyReader *)
(* ===================================================================== *)

(** [x or {}] for an optional dictionary *)
Definition or_empty (d : Datatypes.option dict) : dict :=
  match d with Some d => d | None => [] end.

(** [v.split(',')], defined on strings only *)
Definition split_value (v : Value) : result (list string) :=
  match v with
  | VStr s => Ok (Py.split "," s)
  | _ => Raise (OtherError "AttributeError" "object has no attribute 'split'")
  end.

Definition of_port (p : Datatypes.option Z) : Value :=
  match p with Some n => VInt n | None => VNone end.

(** [topic (str|List[str]|None)] *)
Inductive Topic : Type :=
| TopicStr (t : string)
| TopicList (l : list string)
| TopicNone.

(** [(partition, start_offset, end_offset)] *)
Definition OffsetRange : Type := (Z * Z * Z)%type.

(** [offset[i]]; the reader uses indices 0, 1 and 2 only. *)
Definition item (offset : OffsetRange) (i : nat) : Z :=
  let '(partition, start_offset, end_offset) := offset in
  match i with
  | O => partition
  | S O => start_offset
  | _ => end_offset
  end.

(** A [StructType], given by its fields. *)
Definition Schema : Type := list (string * DataType).

Definition multiple_topics_message : string :=
  "Specifying offset_ranges for multiple topics is not currently supported; " ++
  "please specify options " ++ Py.dquote ++ "startingOffsets" ++ Py.dquote ++
  " and " ++ Py.dquote ++ "endingOffsets" ++ Py.dquote ++ " manually".

Section SparklyReader.

(** [sparkly.utils.parse_schema] is not part of the reader; it is taken as
    given, and may raise. *)
Variable parse_schema : Value -> result DataType.

Definition _basic_read (reader_options : dict) (additional_options : Datatypes.option dict)
    (parallelism : Value) : Eff DataFrame :=
  let reader_options := dupdate reader_options (or_empty additional_options) in
  df <- Engine.read_load reader_options ;;
  if truthy parallelism then Engine.method (coalesce parallelism) df else ret df.

Definition cassandra (host : Value) (keyspace table : string) (consistency port : Value)
    (parallelism : Value) (options : Datatypes.option dict) : Eff DataFrame :=
  let reader_options :=
    [ ("format", VStr "org.apache.spark.sql.cassandra");
      ("spark.cassandra.connection.host", host);
      ("keyspace", VStr keyspace);
      ("table", VStr table) ] in
  let reader_options :=
    if truthy consistency
    then dset "spark.cassandra.input.consistency.level" consistency reader_options
    else reader_options in
  let reader_options :=
    if truthy port
    then dset "spark.cassandra.connection.port" (VStr (str port)) reader_options
    else reader_options in
  _basic_read reader_options options parallelism.

Definition elastic (host : Value) (es_index : string) (es_type : Value) (query : string)
    (fields : Datatypes.option (list string)) (port : Value) (parallelism : Value)
    (options : Datatypes.option dict) : Eff DataFrame :=
  let reader_options :=
    [ ("path", VStr (if truthy es_type then es_index ++ "/" ++ str es_type else es_index));
      ("format", VStr "org.elasticsearch.spark.sql");
      ("es.nodes", host);
      ("es.query", VStr query);
      ("es.read.metadata", VStr "true") ] in
  let reader_options :=
    match fields with
    | Some (f :: fs) => dset "es.read.field.include" (VStr (Py.join "," (f :: fs))) reader_options
    | _ => reader_options
    end in
  let reader_options :=
    if truthy port then dset "es.port" (VStr (str port)) reader_options else reader_options in
  _basic_read reader_options options parallelism.

Definition mysql (host : Value) (database table : string) (port : Value)
    (parallelism : Value) (options : Datatypes.option dict) : Eff DataFrame :=
  let reader_options :=
    [ ("format", VStr "jdbc");
      ("driver", VStr "com.mysql.jdbc.Driver");
      ("url", VStr ("jdbc:mysql://" ++ str host ++
                    (if truthy port then ":" ++ str port else "") ++
                    "/" ++ database));
      ("dbtable", VStr table) ] in
  _basic_read reader_options options parallelism.

(** The local function [get_offsets] of [kafka]. *)
Definition get_offsets (offsets : list OffsetRange) (which : nat) : list (Z * Z) :=
  Dict.of_pairs Z.eqb (map (fun offset => (item offset 0, item offset which)) offsets).

(** The local function [get_schema] of [kafka]; [schema] is the argument of
    the enclosing call. *)
Definition get_schema (schema : Datatypes.option Schema) (field : string) : result DataType :=
  match schema with
  | None => Raise (InvalidArgumentError "Cannot use a deserializer without specifying schema")
  | Some fields =>
      match filter (fun x => String.eqb (fst x) field) fields with
      | [] => Raise (InvalidArgumentError
                       ("Cannot find field: " ++ field ++ " in schema: " ++
                        simpleString (StructType fields)))
      | candidate :: _ => Ok (snd candidate)
      end
  end.

(** [for key, value in options.items(): reader = reader.option(key, value)] *)
Fixpoint set_options (items : dict) (reader : Reader) : Eff Reader :=
  match items with
  | [] => ret reader
  | (key, value) :: rest =>
      reader <- Engine.option key value reader ;;
      set_options rest reader
  end.

Definition kafka (host : string) (topic : Topic)
    (offset_ranges : Datatypes.option (list OffsetRange))
    (key_deserializer value_deserializer : Datatypes.option Callable)
    (schema : Datatypes.option Schema) (port : Z) (parallelism : Value)
    (options : Datatypes.option dict) (include_meta_cols : Datatypes.option bool)
    : Eff DataFrame :=
  let topic := match topic with TopicStr t => TopicList [t] | _ => topic end in
  reader <- Engine.format "kafka" ;;
  reader <- Engine.option "kafka.bootstrap.servers"
              (VStr (host ++ ":" ++ Py.str_of_int port)) reader ;;
  topic <- match topic with
           | TopicList l => ret l
           | _ => throw (TypeError "can only join an iterable")
           end ;;
  reader <- Engine.option "subscribe" (VStr (Py.join "," topic)) reader ;;
  reader <- match offset_ranges with
            | Some (r :: rs) =>
                let offset_ranges := r :: rs in
                if (1 <? length topic)%nat
                then throw (InvalidArgumentError multiple_topics_message)
                else
                  let starting_offsets :=
                    Json.dumps (Dict.of_pairs String.eqb
                                  (map (fun t => (t, get_offsets offset_ranges 1)) topic)) in
                  let ending_offsets :=
                    Json.dumps (Dict.of_pairs String.eqb
                                  (map (fun t => (t, get_offsets offset_ranges 2)) topic)) in
                  reader <- Engine.option "startingOffsets" (VStr starting_offsets) reader ;;
                  Engine.option "endingOffsets" (VStr ending_offsets) reader
            | _ => ret reader
            end ;;
  reader <- set_options (or_empty options) reader ;;
  df <- Engine.load reader ;;
  df <- match key_deserializer with
        | Some f =>
            returnType <- lift (get_schema schema "key") ;;
            Engine.method (withColumn "key" f returnType "key") df
        | None => ret df
        end ;;
  df <- match value_deserializer with
        | Some f =>
            returnType <- lift (get_schema schema "value") ;;
            Engine.method (withColumn "value" f returnType "value") df
        | None => ret df
        end ;;
  df <- match include_meta_cols with
        | Some true => ret df
        | _ => Engine.method (select ["key"; "value"]) df
        end ;;
  if truthy parallelism then Engine.method (coalesce parallelism) df else ret df.

Definition _resolve_cassandra (parsed_url : Urllib.ParseResult) (parsed_qs : dict)
    : Eff DataFrame :=
  let host := Urllib.hostname parsed_url in
  keyspace <- lift (list_index (Py.split "/" (Urllib.path parsed_url)) 1) ;;
  table <- lift (list_index (Py.split "/" (Urllib.path parsed_url)) 2) ;;
  let '(consistency, parsed_qs) := pop_or_none "consistency" parsed_qs in
  port <- lift (Urllib.port parsed_url) ;;
  let '(parallelism, parsed_qs) := pop_or_none "parallelism" parsed_qs in
  cassandra host keyspace table consistency (of_port port) parallelism (Some parsed_qs).

Definition _resolve_csv (parsed_url : Urllib.ParseResult) (parsed_qs : dict)
    : Eff DataFrame :=
  let '(parallelism, parsed_qs) := pop_or_none "parallelism" parsed_qs in
  parsed_qs <- (if dmem "schema" parsed_qs
                then let '(schema, parsed_qs) := pop_or_none "schema" parsed_qs in
                     parsed <- lift (parse_schema schema) ;;
                     ret (dset "schema" (VType parsed) parsed_qs)
                else ret parsed_qs) ;;
  options <- lift (kwargs [("path", VStr (Urllib.path parsed_url))] parsed_qs) ;;
  df <- Engine.read_csv options ;;
  if truthy parallelism
  then n <- lift (int parallelism) ;; Engine.method (coalesce (VInt n)) df
  else ret df.

Definition _resolve_elastic (parsed_url : Urllib.ParseResult) (parsed_qs : dict)
    : Eff DataFrame :=
  let '(query, parsed_qs) :=
    if dmem "q" parsed_qs
    then let '(q, parsed_qs) := pop_or_none "q" parsed_qs in ("?q=" ++ str q, parsed_qs)
    else ("", parsed_qs) in
  fields_qs <- (if dmem "fields" parsed_qs
                then let '(f, parsed_qs) := pop_or_none "fields" parsed_qs in
                     l <- lift (split_value f) ;; ret (Some l, parsed_qs)
                else ret (None, parsed_qs)) ;;
  let '(fields, parsed_qs) := fields_qs in
  let path_segments := Py.split "/" (Urllib.path parsed_url) in
  let host := VStr (Urllib.netloc parsed_url) in
  es_index <- lift (list_index path_segments 1) ;;
  es_type <- (if (2 <? length path_segments)%nat
              then s <- lift (list_index path_segments 2) ;; ret (VStr s)
              else ret VNone) ;;
  port <- lift (Urllib.port parsed_url) ;;
  let '(parallelism, parsed_qs) := pop_or_none "parallelism" parsed_qs in
  elastic host es_index es_type query fields (of_port port) parallelism (Some parsed_qs).

Definition _resolve_mysql (parsed_url : Urllib.ParseResult) (parsed_qs : dict)
    : Eff DataFrame :=
  let host := Urllib.hostname parsed_url in
  database <- lift (list_index (Py.split "/" (Urllib.path parsed_url)) 1) ;;
  table <- lift (list_index (Py.split "/" (Urllib.path parsed_url)) 2) ;;
  port <- lift (Urllib.port parsed_url) ;;
  let '(parallelism, parsed_qs) := pop_or_none "parallelism" parsed_qs in
  mysql host database table (of_port port) parallelism (Some parsed_qs).

Definition _resolve_parquet (parsed_url : Urllib.ParseResult) (parsed_qs : dict)
    : Eff DataFrame :=
  let '(parallelism, parsed_qs) := pop_or_none "parallelism" parsed_qs in
  options <- lift (kwargs [ ("path", VStr (Urllib.path parsed_url));
                            ("format", VStr (Urllib.scheme parsed_url)) ] parsed_qs) ;;
  df <- Engine.read_load options ;;
  if truthy parallelism
  then n <- lift (int parallelism) ;; Engine.method (coalesce (VInt n)) df
  else ret df.

Definition _resolve_table (parsed_url : Urllib.ParseResult) (parsed_qs : dict)
    : Eff DataFrame :=
  df <- Engine.table (Urllib.netloc parsed_url) ;;
  let '(parallelism, parsed_qs) := pop_or_none "parallelism" parsed_qs in
  if truthy parallelism
  then n <- lift (int parallelism) ;; Engine.method (coalesce (VInt n)) df
  else ret df.

(** [getattr(self, '_resolve_{}'.format(scheme))]: the methods of the class
    whose name starts with [_resolve_]; [None] stands for [AttributeError]. *)
Definition resolver (scheme : string)
    : Datatypes.option (Urllib.ParseResult -> dict -> Eff DataFrame) :=
  if String.eqb scheme "cassandra" then Some _resolve_cassandra
  else if String.eqb scheme "csv" then Some _resolve_csv
  else if String.eqb scheme "elastic" then Some _resolve_elastic
  else if String.eqb scheme "mysql" then Some _resolve_mysql
  else if String.eqb scheme "parquet" then Some _resolve_parquet
  else if String.eqb scheme "table" then Some _resolve_table
  else None.

(** [dict(parse_qsl(parsed_url.query))] *)
Definition query_dict (parsed_url : Urllib.ParseResult) : dict :=
  Dict.of_pairs String.eqb
    (map (fun kv => (fst kv, VStr (snd kv))) (Urllib.parse_qsl (Urllib.query parsed_url))).

(** The coercion of [parallelism] at the top of [by_url]. *)
Definition coerce_parallelism (parsed_qs : dict) : result dict :=
  match dget "parallelism" parsed_qs with
  | Some v => rbind (int v) (fun n => Ok (dset "parallelism" (VInt n) parsed_qs))
  | None => Ok parsed_qs
  end.

Definition by_url (url : string) : Eff DataFrame :=
  parsed_url <- lift (Urllib.urlparse url) ;;
  let parsed_qs := query_dict parsed_url in
  parsed_qs <- lift (coerce_parallelism parsed_qs) ;;
  match resolver (Urllib.scheme parsed_url) with
  | None => throw (NotImplementedError ("Data source is not supported: " ++ url))
  | Some resolve => resolve parsed_url parsed_qs
  end.

End SparklyReader.

(** A stand-in for [parse_schema] when the reader is run on a concrete URL:
    the text is taken as the name of an atomic type. *)
Definition atomic_schema (v : Value) : result DataType := Ok (AtomicType (str v)).

(** [sub in s] for strings *)
Fixpoint occurs (sub s : string) : bool :=
  if String.prefix sub s then true
  else match s with
       | EmptyString => false
       | String _ r => occurs sub r
       end.


Definition discriminator (scheme : string) : Datatypes.option string :=
  if String.eqb scheme "cassandra" then Some "org.apache.spark.sql.cassandra"
  else if String.eqb scheme "elastic" then Some "org.elasticsearch.spark.sql"
  else if String.eqb scheme "mysql" then Some "jdbc"
  else if String.eqb scheme "parquet" then Some "parquet"
  else None.

(** The calls that make the engine produce a data frame. *)
Definition is_load (c : Call) : bool :=
  match c with
  | reader_load | read_load _ | read_csv _ | table _ => true
  | _ => false
  end.

(** The field of a schema that [get_schema] would pick, in the words of the
    specification: the declared type of the field with that name. *)
Definition field_type (schema : Datatypes.option Schema) (name : string)
    : Datatypes.option DataType :=
  match schema with
  | None => None
  | Some fields => option_map snd (find (fun x => String.eqb (fst x) name) fields)
  end.

Definition has_field (fields : Schema) (name : string) : bool :=
  existsb (fun x => String.eqb (fst x) name) fields.

(** The offset-ranges check of [kafka] lets the call through. *)
Definition passes_offsets_check (topic : Topic)
    (offset_ranges : Datatypes.option (list OffsetRange)) : Prop :=
  match offset_ranges, topic with
  | Some (_ :: _), TopicList l => (length l <= 1)%nat
  | _, _ => True
  end.


(** A string between double quotes, as JSON writes it. *)
Definition quoted (s : string) : string := Py.dquote ++ s ++ Py.dquote.

(** What the specification asks of a supplied deserializer: one [withColumn]
    on the column of that name, typed by the schema field of that name. *)
Definition deserialize (colName : string) (f : Datatypes.option Callable)
    (schema : Datatypes.option Schema) : list Call :=
  match f, field_type schema colName with
  | Some f, Some returnType => [withColumn colName f returnType colName]
  | _, _ => []
  end.

(** A deserializer for the examples: the bytes read as text. *)
Definition as_text : Callable := fun b => VStr b.

(** [merged] is [defaults] with [additional] laid over it, key by key: no
    key of [defaults] is lost, a key of [additional] carries the value from
    [additional], any other key the value from [defaults]. *)
Definition merged_over (defaults additional merged : dict) : Prop :=
  (forall k, dmem k defaults = true -> dmem k merged = true)
  /\ (forall k v, dget k additional = Some v -> dget k merged = Some v)
  /\ (forall k, dget k additional = None -> dget k merged = dget k defaults).

(** [d.get(k)]: Python's [None] stands for a missing key. *)
Definition get_or_none (k : string) (d : dict) : Value :=
  match dget k d with Some v => v | None => VNone end.

(** The [coalesce] that follows a load for a given [parallelism]. *)
Definition coalesce_calls (parallelism : Value) : list Call :=
  if truthy parallelism then [coalesce parallelism] else [].

(** The parallelism a URL asks for: the integer its query gives to
    [parallelism], if any. *)
Definition requested_parallelism (parsed_url : Urllib.ParseResult) : Value :=
  match dget "parallelism" (query_dict parsed_url) with
  | Some v => match int v with inr n => VInt n | inl _ => VNone end
  | None => VNone
  end.

(** The keyword arguments of a call that loads data, when it has any. *)
Definition call_options (c : Call) : Datatypes.option dict :=
  match c with
  | read_load options | read_csv options => Some options
  | _ => None
  end.

(** The query parameters a resolver takes for itself. *)
Definition reserved_keys (scheme : string) : list string :=
  if String.eqb scheme "cassandra" then ["consistency"; "parallelism"]
  else if String.eqb scheme "elastic" then ["q"; "fields"; "parallelism"]
  else if String.eqb scheme "csv" then ["parallelism"; "schema"]
  else ["parallelism"].

(** A location free of the characters [urlparse] gives a meaning to or
    removes: [?], [#], TAB, LF and CR. *)
Fixpoint plain_location (s : string) : bool :=
  match s with
  | EmptyString => true
  | String c r =>
      (negb (Py.contains c ("?#" ++ Py.str1 (Py.chr 9) ++ Py.str1 (Py.chr 10)
                              ++ Py.str1 (Py.chr 13)))
       && plain_location r)%bool
  end.

(** The topics of a [kafka] call as a list. *)
Definition topic_names (topic : Topic) : list string :=
  match topic with
  | TopicStr t => [t]
  | TopicList l => l
  | TopicNone => []
  end.

(** The two settings [kafka] derives from a non-empty [offset_ranges]. *)
Definition offsets_options (topics : list string)
    (offset_ranges : Datatypes.option (list OffsetRange)) : dict :=
  match offset_ranges with
  | Some (r :: rs) =>
      [ ("startingOffsets",
         VStr (Json.dumps (Dict.of_pairs String.eqb
                             (map (fun t => (t, get_offsets (r :: rs) 1)) topics))));
        ("endingOffsets",
         VStr (Json.dumps (Dict.of_pairs String.eqb
                             (map (fun t => (t, get_offsets (r :: rs) 2)) topics)))) ]
  | _ => []
  end.

(** All the settings of the reader of a [kafka] call, in the order they are
    made. *)
Definition kafka_settings (host : string) (port : Z) (topic : Topic)
    (offset_ranges : Datatypes.option (list OffsetRange))
    (options : Datatypes.option dict) : dict :=
  ([ ("kafka.bootstrap.servers", VStr (host ++ ":" ++ Py.str_of_int port));
     ("subscribe", VStr (Py.join "," (topic_names topic))) ]
   ++ offsets_options (topic_names topic) offset_ranges
   ++ or_empty options)%list.
(* ===================================================================== *)
(** ** Facts about dictionaries *)
(* ===================================================================== *)

Section DictFacts.

Implicit Types (d e : dict) (k : string) (v : Value).

Lemma dget_dset_same k v d : dget k (dset k v d) = Some v.
Proof.
  induction d as [|[k' v'] r IH]; simpl.
  - now rewrite String.eqb_refl.
  - destruct (String.eqb k' k) eqn:E; simpl; rewrite E; auto.
Qed.

Lemma dget_dset_other k k' v d : k <> k' -> dget k' (dset k v d) = dget k' d.
Proof.
  intros Hne. induction d as [|[k0 v0] r IH]; simpl.
  - destruct (String.eqb_spec k k'); congruence.
  - destruct (String.eqb_spec k0 k); simpl.
    + subst. destruct (String.eqb_spec k k'); congruence.
    + destruct (String.eqb k0 k'); auto.
Qed.

Lemma dget_dremove_none k k' d : dget k d = None -> dget k (dremove k' d) = None.
Proof.
  induction d as [|[k0 v0] r IH]; simpl; auto.
  destruct (String.eqb k0 k) eqn:E; [discriminate|].
  intros H. destruct (String.eqb k0 k'); simpl; auto.
  rewrite E. auto.
Qed.

Lemma dget_pop_or_none k k' d :
  dget k d = None -> dget k (snd (pop_or_none k' d)) = None.
Proof.
  intros H. unfold pop_or_none, dpop, Dict.pop.
  destruct (Dict.get String.eqb k' d); simpl; now apply dget_dremove_none.
Qed.

Lemma dget_dupdate_none k d e : dget k e = None -> dget k (dupdate d e) = dget k d.
Proof.
  revert d. induction e as [|[k0 v0] r IH]; intros d; simpl; auto.
  destruct (String.eqb_spec k0 k); [discriminate|].
  intros H. unfold dupdate in *. simpl. rewrite IH by assumption.
  now apply dget_dset_other.
Qed.

Lemma dget_not_key k d : ~ In k (Dict.keys d) -> dget k d = None.
Proof.
  induction d as [|[k0 v0] r IH]; simpl; auto.
  intros H. destruct (String.eqb_spec k0 k); [tauto|]. apply IH. tauto.
Qed.

(** A later item for a key overwrites what was stored before: the caller's
    value is the one found after [update]. *)
Lemma dget_dupdate_some k v d e :
  NoDup (Dict.keys e) -> dget k e = Some v -> dget k (dupdate d e) = Some v.
Proof.
  revert d. induction e as [|[k0 v0] r IH]; intros d Hnd; simpl; [discriminate|].
  inversion Hnd as [|? ? Hnotin Hnd']; subst.
  unfold dupdate in *. simpl.
  destruct (String.eqb_spec k0 k).
  - intros [= ->]. subst.
    change (dget k (dupdate (dset k v d) r) = Some v).
    rewrite dget_dupdate_none by now apply dget_not_key.
    apply dget_dset_same.
  - intros H. now apply IH.
Qed.

Lemma dmem_dset k k' v d : dmem k d = true -> dmem k (dset k' v d) = true.
Proof.
  unfold dmem, Dict.mem. fold (dget k d). fold (dget k (dset k' v d)).
  destruct (String.eqb_spec k' k).
  - subst. now rewrite dget_dset_same.
  - now rewrite dget_dset_other.
Qed.

(** [update] never removes a key. *)
Lemma dmem_dupdate k d e : dmem k d = true -> dmem k (dupdate d e) = true.
Proof.
  revert d. induction e as [|[k0 v0] r IH]; intros d H; simpl; auto.
  unfold dupdate in *. simpl. apply IH. now apply dmem_dset.
Qed.

End DictFacts.

(* ===================================================================== *)
(** ** Facts about computations that call the engine *)
(* ===================================================================== *)

Arguments Py.str_of_int : simpl never.
Arguments Json.dumps : simpl never.
Arguments multiple_topics_message : simpl never.
Arguments get_schema : simpl never.
Arguments field_type : simpl never.

Ltac eff_unfold :=
  unfold run, bind, ret, throw, lift, call,
    Engine.format, Engine.option, Engine.load, Engine.read_load,
    Engine.read_csv, Engine.table, Engine.method in *.

Ltac eff_simpl := eff_unfold; simpl in *; eff_unfold; simpl in *.

(** The loop over the caller's options issues one [option] call per item and
    cannot fail. *)
Lemma set_options_run (items : dict) (reader : Reader) (log : list Call) :
  set_options items reader log =
    ((log ++ map (fun kv => reader_option (fst kv) (snd kv)) items)%list,
     Ok (mkReader (reader_source reader) (reader_options reader ++ items)%list)).
Proof.
  revert reader log.
  induction items as [|[key value] rest IH]; intros reader log; simpl.
  - unfold ret. rewrite !app_nil_r. now destruct reader.
  - eff_simpl. rewrite IH. simpl. now rewrite <- !app_assoc.
Qed.

(* ===================================================================== *)
(** ** kafka: the offset-ranges check *)
(* ===================================================================== *)

(** C2.  A [kafka] call with a non-empty [offset_ranges] and more than one
    topic raises [InvalidArgumentError]; up to that point the reader has only
    been configured (format and two options), and no call that loads data
    was made. *)
Theorem kafka_offset_ranges_several_topics :
  forall host l r rs key_deserializer value_deserializer schema port
         parallelism options include_meta_cols,
    (1 < length l)%nat ->
    exists log,
      run (kafka host (TopicList l) (Some (r :: rs)) key_deserializer
             value_deserializer schema port parallelism options include_meta_cols)
      = (log, Raise (InvalidArgumentError multiple_topics_message))
      /\ log = [ read_format "kafka";
                 reader_option "kafka.bootstrap.servers"
                   (VStr (host ++ ":" ++ Py.str_of_int port));
                 reader_option "subscribe" (VStr (Py.join "," l)) ]
      /\ existsb is_load log = false.
Proof.
  intros host l r rs kd vd schema port par opts meta Hlen.
  eexists. split; [|split; [reflexivity|reflexivity]].
  apply Nat.ltb_lt in Hlen.
  unfold kafka. eff_simpl. now rewrite Hlen.
Qed.

Lemma kafka_offset_ranges_several_topics_witness :
  (1 < length ["a"; "b"])%nat /\
  exists log,
    run (kafka "broker" (TopicList ["a"; "b"]) (Some [(0, 10, 20)]) None None None
           9092 VNone None None)
    = (log, Raise (InvalidArgumentError multiple_topics_message))
    /\ log = [ read_format "kafka";
               reader_option "kafka.bootstrap.servers"
                 (VStr ("broker" ++ ":" ++ Py.str_of_int 9092));
               reader_option "subscribe" (VStr (Py.join "," ["a"; "b"])) ]
    /\ existsb is_load log = false.
Proof.
  split; [simpl; lia|].
  apply (kafka_offset_ranges_several_topics "broker" ["a"; "b"] (0, 10, 20) []).
  simpl; lia.
Defined.

(** Case analysis on the optional arguments of [kafka]. *)
Ltac kafka_cases kd vd schema meta par :=
  destruct kd, vd, schema as [?fields|], meta as [[|]|], (truthy par) eqn:?;
  simpl;
  repeat match goal with
         | |- context [filter ?f ?l] => destruct (filter f l) as [|[? ?] ?] eqn:?; simpl
         end.

(** The dictionary [get_offsets] builds has the partitions of the ranges as
    its keys, and nothing else. *)
Lemma mem_set_offsets (p k v : Z) (d : list (Z * Z)) :
  Dict.mem Z.eqb p (Dict.set Z.eqb k v d) = true <->
  p = k \/ Dict.mem Z.eqb p d = true.
Proof.
  unfold Dict.mem. induction d as [|[k' v'] r IH]; simpl.
  - destruct (Z.eqb_spec k p); intuition congruence.
  - destruct (Z.eqb_spec k' k); simpl.
    + subst. destruct (Z.eqb_spec k p); intuition congruence.
    + destruct (Z.eqb_spec k' p); [tauto|exact IH].
Qed.

Lemma mem_update_offsets (p : Z) (items d : list (Z * Z)) :
  Dict.mem Z.eqb p (Dict.update Z.eqb d items) = true <->
  Dict.mem Z.eqb p d = true \/ In p (map fst items).
Proof.
  revert d. unfold Dict.update.
  induction items as [|[k v] r IH]; intros d; simpl; [tauto|].
  rewrite IH, mem_set_offsets. intuition congruence.
Qed.

Lemma get_offsets_partitions (offsets : list OffsetRange) (which : nat) (p : Z) :
  Dict.mem Z.eqb p (get_offsets offsets which) = true <->
  In p (map (fun offset => item offset 0) offsets).
Proof.
  unfold get_offsets, Dict.of_pairs. rewrite mem_update_offsets, map_map. simpl.
  unfold Dict.mem at 1. simpl. intuition discriminate.
Qed.

(** After the loop over the options the reader is loaded; whatever follows
    only extends the log. *)
Ltac log_prefix kd vd schema meta par :=
  unfold kafka, get_schema; eff_simpl;
  rewrite ?set_options_run;
  kafka_cases kd vd schema meta par;
  eexists; rewrite <- ?app_assoc; simpl; reflexivity.

(** C3.  For a single topic [t], given as a string or as a one-element list,
    and [offset_ranges = [(0,10,20),(1,0,5)]], the reader is configured with
    [startingOffsets] set to the JSON text of [{t: {0: 10, 1: 0}}] and
    [endingOffsets] to that of [{t: {0: 20, 1: 5}}]: partition ids are the
    keys, start offsets go to the first and end offsets to the second, and
    no other partition appears; without further options these are the last
    settings before the reader is loaded.  For the topic named [t] the two
    texts are
    [{"t": {"0": 10, "1": 0}}] and [{"t": {"0": 20, "1": 5}}]. *)
Theorem kafka_offset_ranges_single_topic :
  forall host t key_deserializer value_deserializer schema port parallelism
         options include_meta_cols,
    let offset_ranges := Some [(0, 10, 20); (1, 0, 5)] in
    let configured :=
      [ read_format "kafka";
        reader_option "kafka.bootstrap.servers" (VStr (host ++ ":" ++ Py.str_of_int port));
        reader_option "subscribe" (VStr t);
        reader_option "startingOffsets" (VStr (Json.dumps [(t, [(0, 10); (1, 0)])]));
        reader_option "endingOffsets" (VStr (Json.dumps [(t, [(0, 20); (1, 5)])])) ] in
    (exists rest,
        fst (run (kafka host (TopicStr t) offset_ranges key_deserializer
                    value_deserializer schema port parallelism options include_meta_cols))
        = (configured ++ rest)%list)
    /\ (exists rest,
        fst (run (kafka host (TopicList [t]) offset_ranges key_deserializer
                    value_deserializer schema port parallelism options include_meta_cols))
        = (configured ++ rest)%list)
    /\ (exists rest,
        fst (run (kafka host (TopicStr t) offset_ranges key_deserializer
                    value_deserializer schema port parallelism None include_meta_cols))
        = (configured ++ reader_load :: rest)%list)
    /\ (forall which p,
          Dict.mem Z.eqb p (get_offsets [(0, 10, 20); (1, 0, 5)] which) = true <->
          p = 0 \/ p = 1)
    /\ Json.dumps [("t", [(0, 10); (1, 0)])]
       = "{" ++ quoted "t" ++ ": {" ++ quoted "0" ++ ": 10, " ++ quoted "1" ++ ": 0}}"
    /\ Json.dumps [("t", [(0, 20); (1, 5)])]
       = "{" ++ quoted "t" ++ ": {" ++ quoted "0" ++ ": 20, " ++ quoted "1" ++ ": 5}}".
Proof.
  intros host t kd vd schema port par opts meta offset_ranges configured.
  subst offset_ranges configured.
  split; [|split; [|split; [|split; [|split; reflexivity]]]].
  - log_prefix kd vd schema meta par.
  - log_prefix kd vd schema meta par.
  - log_prefix kd vd schema meta par.
  - intros which p. rewrite get_offsets_partitions. simpl. intuition congruence.
Qed.

(* ===================================================================== *)
(** ** kafka: metadata columns *)
(* ===================================================================== *)

Lemma select_not_option (cols : list string) (items : dict) :
  ~ In (select cols) (map (fun kv => reader_option (fst kv) (snd kv)) items).
Proof.
  intros H. apply in_map_iff in H. destruct H as [kv [H _]]. discriminate.
Qed.

(** Unfolds a [kafka] call up to the point where the reader is loaded. *)
Ltac kafka_start topic offset_ranges :=
  unfold kafka, get_schema; eff_simpl;
  destruct topic as [?t|?l|]; simpl in *;
  [ destruct offset_ranges as [[|? ?]|]; simpl in *
  | destruct offset_ranges as [[|? ?]|]; simpl in *;
    [ | destruct (1 <? length l)%nat eqn:?; simpl in * | ]
  | ];
  rewrite ?set_options_run in *; simpl in *.

(** C8.  Whenever [kafka] returns a data frame: if [include_meta_cols] is
    [None] or [False], a [select('key', 'value')] was applied last among the
    column operations, so the frame has exactly the columns [key] and
    [value], whatever metadata columns the source exposes; if it is [True],
    no [select] call is made at all and every column of the source is kept. *)
Theorem kafka_include_meta_cols :
  forall host topic offset_ranges key_deserializer value_deserializer schema port
         parallelism options include_meta_cols metadata log df,
    run (kafka host topic offset_ranges key_deserializer value_deserializer schema
           port parallelism options include_meta_cols) = (log, Ok df) ->
    match include_meta_cols with
    | Some true =>
        columns ("key" :: "value" :: metadata) df = "key" :: "value" :: metadata
        /\ forall cols, ~ In (select cols) log
    | _ =>
        columns ("key" :: "value" :: metadata) df = ["key"; "value"]
        /\ In (select ["key"; "value"]) log
    end.
Proof.
  intros host topic offset_ranges kd vd schema port par opts meta metadata log df.
  kafka_start topic offset_ranges;
    try (intros H; discriminate H);
    kafka_cases kd vd schema meta par;
    intros H; try discriminate H;
    injection H as <- <-; unfold columns; simpl;
    (split; [reflexivity|]);
    try (rewrite ?in_app_iff; simpl; tauto);
    intros cols Hin; rewrite ?in_app_iff in Hin; simpl in Hin;
    pose proof (select_not_option cols (or_empty opts));
    intuition discriminate.
Qed.

Lemma kafka_include_meta_cols_witness :
  columns ["key"; "value"; "topic"; "partition"; "offset"; "timestamp"]
    (mkDataFrame
       (from_reader (mkReader "kafka"
          [("kafka.bootstrap.servers", VStr "broker:9092"); ("subscribe", VStr "t")]))
       [select ["key"; "value"]])
  = ["key"; "value"]
  /\ In (select ["key"; "value"])
        [ read_format "kafka";
          reader_option "kafka.bootstrap.servers" (VStr "broker:9092");
          reader_option "subscribe" (VStr "t");
          reader_load;
          select ["key"; "value"] ].
Proof.
  apply (kafka_include_meta_cols "broker" (TopicStr "t") None None None None 9092 VNone
           None None ["topic"; "partition"; "offset"; "timestamp"]).
  reflexivity.
Defined.

(* ===================================================================== *)
(** ** kafka: deserializers and the schema *)
(* ===================================================================== *)

Lemma filter_nil_existsb {A} (f : A -> bool) (l : list A) :
  filter f l = [] <-> existsb f l = false.
Proof.
  induction l as [|a l IH]; simpl; [tauto|].
  destruct (f a); simpl; [split; discriminate|exact IH].
Qed.

Lemma filter_head_find {A} (f : A -> bool) (l : list A) :
  find f l = hd_error (filter f l).
Proof.
  induction l as [|a l IH]; simpl; [reflexivity|].
  destruct (f a); simpl; auto.
Qed.

(** [get_schema] picks the declared type of the first field of that name,
    and has one message for a missing schema and one for a missing field. *)
Lemma get_schema_spec (schema : option Schema) (field : string) :
  get_schema schema field =
    match schema with
    | None => Raise (InvalidArgumentError "Cannot use a deserializer without specifying schema")
    | Some fields =>
        match field_type schema field with
        | Some returnType => Ok returnType
        | None => Raise (InvalidArgumentError
                           ("Cannot find field: " ++ field ++ " in schema: " ++
                            simpleString (StructType fields)))
        end
    end.
Proof.
  destruct schema as [fields|]; [|reflexivity].
  unfold get_schema, field_type. rewrite filter_head_find.
  now destruct (filter _ fields).
Qed.

Lemma field_type_has_field (fields : Schema) (name : string) :
  has_field fields name = false <-> field_type (Some fields) name = None.
Proof.
  unfold has_field, field_type. rewrite filter_head_find, <- filter_nil_existsb.
  destruct (filter _ fields); simpl; split; congruence.
Qed.

(** Unfolds a [kafka] call that gets past the topic and offset checks. *)
Ltac kafka_past_checks topic offset_ranges Hpass :=
  unfold kafka; eff_simpl;
  destruct topic as [?t|?l|]; [ | | congruence];
  (destruct offset_ranges as [[|? ?]|]; simpl in *;
   try (apply Nat.leb_le in Hpass; rewrite Nat.ltb_antisym, Hpass; simpl));
  rewrite ?set_options_run; simpl; rewrite ?get_schema_spec.

(** C4 (as amended).  Take a [kafka] call whose topic is a string or a list
    and which passes the offset-ranges check.  If a deserializer is supplied
    and there is no schema, the call raises [InvalidArgumentError].  If the
    key deserializer is supplied and the schema has no field [key], it raises
    [InvalidArgumentError] with a message naming [key] and the schema; the same
    for the value deserializer and [value], once the key has been dealt with.
    Otherwise the call returns, and each supplied deserializer has been
    applied by a [withColumn] on its column whose return type is the declared
    type of the schema field of that name. *)
Theorem kafka_deserializers :
  forall host topic offset_ranges key_deserializer value_deserializer schema port
         parallelism options include_meta_cols,
    topic <> TopicNone ->
    passes_offsets_check topic offset_ranges ->
    let outcome :=
      snd (run (kafka host topic offset_ranges key_deserializer value_deserializer
                  schema port parallelism options include_meta_cols)) in
    ((key_deserializer <> None \/ value_deserializer <> None) ->
     schema = None ->
     outcome = Raise (InvalidArgumentError
                        "Cannot use a deserializer without specifying schema"))
    /\ (forall fields,
          key_deserializer <> None ->
          schema = Some fields ->
          has_field fields "key" = false ->
          outcome = Raise (InvalidArgumentError
                             ("Cannot find field: key in schema: " ++
                              simpleString (StructType fields))))
    /\ (forall fields,
          value_deserializer <> None ->
          schema = Some fields ->
          has_field fields "value" = false ->
          key_deserializer = None \/ has_field fields "key" = true ->
          outcome = Raise (InvalidArgumentError
                             ("Cannot find field: value in schema: " ++
                              simpleString (StructType fields))))
    /\ ((key_deserializer <> None -> field_type schema "key" <> None) ->
        (value_deserializer <> None -> field_type schema "value" <> None) ->
        exists df,
          outcome = Ok df
          /\ applied df =
               (deserialize "key" key_deserializer schema ++
                deserialize "value" value_deserializer schema ++
                (match include_meta_cols with
                 | Some true => []
                 | _ => [select ["key"; "value"]]
                 end) ++
                (if truthy parallelism then [coalesce parallelism] else []))%list).
Proof.
  intros host topic offset_ranges kd vd schema port par opts meta Htopic Hpass outcome.
  subst outcome.
  split; [|split; [|split]].
  - intros Hsome ->.
    kafka_past_checks topic offset_ranges Hpass;
      destruct kd, vd; simpl; try reflexivity; destruct Hsome; congruence.
  - intros fields Hkd -> Hmissing.
    apply field_type_has_field in Hmissing.
    kafka_past_checks topic offset_ranges Hpass;
      rewrite Hmissing; destruct kd; simpl; (reflexivity || congruence).
  - intros fields Hvd -> Hmissing Hkey.
    apply field_type_has_field in Hmissing.
    assert (Hk : kd = None \/ exists T, field_type (Some fields) "key" = Some T).
    { destruct Hkey as [Hkey|Hkey]; [now left|right].
      destruct (field_type (Some fields) "key") eqn:E; [eauto|].
      apply field_type_has_field in E. congruence. }
    kafka_past_checks topic offset_ranges Hpass;
      rewrite Hmissing;
      (destruct Hk as [-> | [T ->]]; destruct vd; simpl; try congruence;
       try reflexivity; destruct kd; simpl; reflexivity).
  - intros Hkey Hvalue.
    assert (Hk : kd = None \/ exists f T, kd = Some f /\ field_type schema "key" = Some T).
    { destruct kd as [f|]; [right|now left].
      destruct (field_type schema "key") eqn:E; [eauto|].
      exfalso. apply Hkey; congruence. }
    assert (Hv : vd = None \/ exists f T, vd = Some f /\ field_type schema "value" = Some T).
    { destruct vd as [f|]; [right|now left].
      destruct (field_type schema "value") eqn:E; [eauto|].
      exfalso. apply Hvalue; congruence. }
    unfold deserialize.
    kafka_past_checks topic offset_ranges Hpass;
      (destruct Hk as [-> | [kf [kT [-> Ek]]]];
       destruct Hv as [-> | [vf [vT [-> Ev]]]];
       rewrite ?Ek, ?Ev;
       destruct schema as [fields|]; simpl in *; try discriminate;
       rewrite ?Ek, ?Ev; simpl;
       destruct meta as [[|]|], (truthy par); simpl;
       eexists; split; reflexivity).
Qed.

Lemma kafka_deserializers_witness :
  TopicStr "t" <> TopicNone
  /\ passes_offsets_check (TopicStr "t") None
  /\ exists df,
       snd (run (kafka "broker" (TopicStr "t") None (Some as_text) None
                   (Some [("key", AtomicType "string"); ("value", AtomicType "binary")])
                   9092 VNone None None)) = Ok df
       /\ applied df =
            [withColumn "key" as_text (AtomicType "string") "key"; select ["key"; "value"]].
Proof.
  assert (Htopic : TopicStr "t" <> TopicNone) by discriminate.
  assert (Hpass : passes_offsets_check (TopicStr "t") None) by exact I.
  split; [exact Htopic|]. split; [exact Hpass|].
  destruct (kafka_deserializers "broker" (TopicStr "t") None (Some as_text) None
              (Some [("key", AtomicType "string"); ("value", AtomicType "binary")])
              9092 VNone None None Htopic Hpass) as (_ & _ & _ & H).
  apply H; vm_compute; congruence.
Defined.

(** C4 fails as it is written when the call is stopped before it reaches the
    deserializers: with two topics and explicit offset ranges the error is
    the one of the offset-ranges check, which names no field, and a
    deserializer whose schema field exists is not applied. *)
Lemma kafka_deserializers_counterexample :
  run (kafka "broker" (TopicList ["a"; "b"]) (Some [(0, 0, 1)]) (Some as_text) None
         (Some [("value", AtomicType "binary")]) 9092 VNone None None)
  = ([ read_format "kafka";
       reader_option "kafka.bootstrap.servers" (VStr "broker:9092");
       reader_option "subscribe" (VStr "a,b") ],
     Raise (InvalidArgumentError multiple_topics_message))
  /\ occurs "key" multiple_topics_message = false
  /\ run (kafka "broker" (TopicList ["a"; "b"]) (Some [(0, 0, 1)]) (Some as_text) None
            (Some [("key", AtomicType "string")]) 9092 VNone None None)
     = ([ read_format "kafka";
          reader_option "kafka.bootstrap.servers" (VStr "broker:9092");
          reader_option "subscribe" (VStr "a,b") ],
        Raise (InvalidArgumentError multiple_topics_message)).
Proof. repeat split; reflexivity. Qed.

(* ===================================================================== *)
(** ** by_url: parsing, coercion and dispatch *)
(* ===================================================================== *)

Section ByUrl.

Variable parse_schema : Value -> result DataType.

(** [by_url] once the URL has been parsed: the coercion of [parallelism],
    then the lookup of the resolver, then the resolver itself. *)
Lemma by_url_run (url : string) (parsed_url : Urllib.ParseResult) (log : list Call) :
  Urllib.urlparse url = Ok parsed_url ->
  by_url parse_schema url log =
    match coerce_parallelism (query_dict parsed_url) with
    | inl e => (log, Raise e)
    | inr parsed_qs =>
        match resolver parse_schema (Urllib.scheme parsed_url) with
        | None => (log, Raise (NotImplementedError ("Data source is not supported: " ++ url)))
        | Some resolve => resolve parsed_url parsed_qs log
        end
    end.
Proof.
  intros H. unfold by_url. eff_unfold. rewrite H. unfold Ok. cbv beta iota.
  destruct (coerce_parallelism (query_dict parsed_url)); [reflexivity|].
  now destruct (resolver parse_schema (Urllib.scheme parsed_url)).
Qed.





(* ===================================================================== *)
(** ** The readers behind the resolvers *)
(* ===================================================================== *)

Arguments pop_or_none : simpl never.
Arguments coerce_parallelism : simpl never.
Arguments query_dict : simpl never.
Arguments dupdate : simpl never.
Arguments list_index : simpl never.
Arguments Urllib.port : simpl never.
Arguments Urllib.hostname : simpl never.
Arguments Py.split : simpl never.
Arguments int : simpl never.
Arguments str : simpl never.

(** One step through a computation recorded in [H]: case analysis on the
    innermost thing it branches on. *)
Ltac step_in H :=
  match type of H with
  | context [match ?x with _ => _ end] =>
      lazymatch x with
      | context [match _ with _ => _ end] => fail
      | _ => destruct x eqn:?; simpl in H; try discriminate H
      end
  end.

Ltac steps_in H := eff_unfold; simpl in H; repeat (step_in H; eff_unfold; simpl in H).

Lemma coerce_parallelism_other (d parsed_qs : dict) (k : string) :
  coerce_parallelism d = Ok parsed_qs -> k <> "parallelism" ->
  dget k parsed_qs = dget k d.
Proof.
  unfold coerce_parallelism. intros H Hk.
  destruct (dget "parallelism" d) as [v|]; [|now injection H as <-].
  destruct (int v); simpl in H; [discriminate|].
  injection H as <-. apply dget_dset_other. congruence.
Qed.

Lemma pop_or_none_other (k k' : string) (d d' : dict) (v : Value) :
  pop_or_none k' d = (v, d') -> dget k d = None -> dget k d' = None.
Proof.
  intros H Hk. pose proof (dget_pop_or_none k k' d Hk) as Hp.
  now rewrite H in Hp.
Qed.

Lemma kwargs_ok (explicit extra options : dict) :
  kwargs explicit extra = Ok options -> options = (explicit ++ extra)%list.
Proof.
  revert explicit. induction extra as [|[k v] r IH]; intros explicit; simpl.
  - intros [= <-]. now rewrite app_nil_r.
  - destruct (dmem k explicit); [discriminate|].
    intros H. apply IH in H. now rewrite <- app_assoc in H.
Qed.

Arguments kwargs : simpl never.

(** [_basic_read] hands the merged options to [spark.read.load], once, and
    coalesces afterwards when [parallelism] is truthy. *)
Lemma basic_read_run (reader_options : dict) (additional_options : option dict)
    (parallelism : Value) (log : list Call) :
  let merged := dupdate reader_options (or_empty additional_options) in
  let after := if truthy parallelism then [coalesce parallelism] else [] in
  _basic_read reader_options additional_options parallelism log
  = ((log ++ read_load merged :: after)%list, Ok (mkDataFrame (from_load merged) after)).
Proof.
  unfold _basic_read. eff_unfold. simpl.
  destruct (truthy parallelism); eff_simpl; [now rewrite <- app_assoc|reflexivity].
Qed.

(** The options each reader builds before the caller's are merged in. *)
Lemma cassandra_options (host : Value) (keyspace table : string)
    (consistency port parallelism : Value) (options : option dict) :
  exists reader_options,
    (forall log, cassandra host keyspace table consistency port parallelism options log
                 = _basic_read reader_options options parallelism log)
    /\ dget "format" reader_options = Some (VStr "org.apache.spark.sql.cassandra")
    /\ dget "spark.cassandra.connection.host" reader_options = Some host
    /\ dget "keyspace" reader_options = Some (VStr keyspace)
    /\ dget "table" reader_options = Some (VStr table).
Proof.
  unfold cassandra.
  destruct (truthy consistency), (truthy port); simpl;
    eexists; (split; [reflexivity|]); repeat split.
Qed.

Lemma elastic_options (host : Value) (es_index : string) (es_type : Value)
    (query : string) (fields : option (list string)) (port parallelism : Value)
    (options : option dict) :
  exists reader_options,
    (forall log, elastic host es_index es_type query fields port parallelism options log
                 = _basic_read reader_options options parallelism log)
    /\ dget "path" reader_options
       = Some (VStr (if truthy es_type then es_index ++ "/" ++ str es_type else es_index))
    /\ dget "format" reader_options = Some (VStr "org.elasticsearch.spark.sql")
    /\ dget "es.nodes" reader_options = Some host
    /\ dget "es.query" reader_options = Some (VStr query)
    /\ dget "es.read.metadata" reader_options = Some (VStr "true")
    /\ dget "es.port" reader_options
       = (if truthy port then Some (VStr (str port)) else None).
Proof.
  unfold elastic.
  destruct fields as [[|f fs]|], (truthy port); simpl;
    eexists; (split; [reflexivity|]); repeat split.
Qed.

Lemma mysql_options (host : Value) (database table : string)
    (port parallelism : Value) (options : option dict) :
  exists reader_options,
    (forall log, mysql host database table port parallelism options log
                 = _basic_read reader_options options parallelism log)
    /\ dget "format" reader_options = Some (VStr "jdbc")
    /\ dget "driver" reader_options = Some (VStr "com.mysql.jdbc.Driver")
    /\ dget "url" reader_options
       = Some (VStr ("jdbc:mysql://" ++ str host ++
                     (if truthy port then ":" ++ str port else "") ++ "/" ++ database))
    /\ dget "dbtable" reader_options = Some (VStr table).
Proof.
  unfold mysql. eexists. split; [reflexivity|]. repeat split.
Qed.

Arguments _basic_read : simpl never.
Arguments cassandra : simpl never.
Arguments elastic : simpl never.
Arguments mysql : simpl never.

(** What a resolver that succeeded has passed to its reader: the path
    segments and the port exist, and the options are what is left of the
    query after the reserved keys were popped. *)
Lemma resolve_cassandra_ok (parsed_url : Urllib.ParseResult) (parsed_qs : dict)
    (log : list Call) (df : DataFrame) :
  _resolve_cassandra parsed_url parsed_qs [] = (log, Ok df) ->
  exists keyspace table consistency port parallelism options,
    Urllib.port parsed_url = Ok port
    /\ (forall k, dget k parsed_qs = None -> dget k options = None)
    /\ cassandra (Urllib.hostname parsed_url) keyspace table consistency (of_port port)
         parallelism (Some options) [] = (log, Ok df).
Proof.
  intros H. unfold _resolve_cassandra in H. steps_in H.
  do 6 eexists. split; [reflexivity|]. split; [|exact H].
  eauto using pop_or_none_other.
Qed.

Lemma resolve_mysql_ok (parsed_url : Urllib.ParseResult) (parsed_qs : dict)
    (log : list Call) (df : DataFrame) :
  _resolve_mysql parsed_url parsed_qs [] = (log, Ok df) ->
  exists database table port parallelism options,
    Urllib.port parsed_url = Ok port
    /\ (forall k, dget k parsed_qs = None -> dget k options = None)
    /\ mysql (Urllib.hostname parsed_url) database table (of_port port)
         parallelism (Some options) [] = (log, Ok df).
Proof.
  intros H. unfold _resolve_mysql in H. steps_in H.
  do 5 eexists. split; [reflexivity|]. split; [|exact H].
  eauto using pop_or_none_other.
Qed.

Lemma resolve_elastic_ok (parsed_url : Urllib.ParseResult) (parsed_qs : dict)
    (log : list Call) (df : DataFrame) :
  _resolve_elastic parsed_url parsed_qs [] = (log, Ok df) ->
  exists es_index es_type query fields port parallelism options,
    Urllib.port parsed_url = Ok port
    /\ (forall k, dget k parsed_qs = None -> dget k options = None)
    /\ elastic (VStr (Urllib.netloc parsed_url)) es_index es_type query fields
         (of_port port) parallelism (Some options) [] = (log, Ok df).
Proof.
  intros H. unfold _resolve_elastic in H. steps_in H.
  all: do 7 eexists; (split; [reflexivity|]); (split; [|exact H]);
    eauto using pop_or_none_other.
Qed.

(* ===================================================================== *)
(** ** by_url: what reaches the engine *)
(* ===================================================================== *)

Lemma discriminator_cases (scheme fmt : string) :
  discriminator scheme = Some fmt ->
  (scheme = "cassandra" /\ fmt = "org.apache.spark.sql.cassandra")
  \/ (scheme = "elastic" /\ fmt = "org.elasticsearch.spark.sql")
  \/ (scheme = "mysql" /\ fmt = "jdbc")
  \/ (scheme = "parquet" /\ fmt = "parquet").
Proof.
  unfold discriminator.
  destruct (String.eqb_spec scheme "cassandra"); [intros [= <-]; tauto|].
  destruct (String.eqb_spec scheme "elastic"); [intros [= <-]; tauto|].
  destruct (String.eqb_spec scheme "mysql"); [intros [= <-]; tauto|].
  destruct (String.eqb_spec scheme "parquet"); [intros [= <-]; tauto|].
  discriminate.
Qed.

(** A reader that went through [_basic_read] with options that leave the
    key [k] alone hands the engine the value it has set for [k] itself. *)
Lemma basic_read_keeps (reader_options options : dict) (parallelism : Value)
    (log : list Call) (df : DataFrame) (k : string) (v : Value) :
  _basic_read reader_options (Some options) parallelism [] = (log, Ok df) ->
  dget k options = None ->
  dget k reader_options = Some v ->
  exists merged rest, log = read_load merged :: rest /\ dget k merged = Some v.
Proof.
  intros H Hk Hv. rewrite basic_read_run in H. simpl in H. injection H as <- _.
  do 2 eexists. split; [reflexivity|].
  now rewrite dget_dupdate_none.
Qed.

(** C1 (as amended).  Let [by_url] succeed on a URL whose query has no
    [format] parameter of its own.  For [cassandra], [elastic], [mysql] and
    [parquet] the first call to the engine is [spark.read.load] with options
    whose [format] is the discriminator of the backend.  For [csv] it is
    [spark.read.csv] with the path of the URL and no [format] option; for
    [table] it is [spark.table] on the authority of the URL, with no options
    at all. *)
Theorem by_url_format :
  forall url parsed_url log df,
    Urllib.urlparse url = Ok parsed_url ->
    dget "format" (query_dict parsed_url) = None ->
    run (by_url parse_schema url) = (log, Ok df) ->
    (forall fmt,
        discriminator (Urllib.scheme parsed_url) = Some fmt ->
        exists options rest,
          log = read_load options :: rest
          /\ dget "format" options = Some (VStr fmt))
    /\ (Urllib.scheme parsed_url = "csv" ->
        exists options rest,
          log = read_csv options :: rest
          /\ dget "path" options = Some (VStr (Urllib.path parsed_url))
          /\ dget "format" options = None)
    /\ (Urllib.scheme parsed_url = "table" ->
        exists rest, log = table (Urllib.netloc parsed_url) :: rest).
Proof.
  intros url pu log df Hparse Hfmt Hrun.
  unfold run in Hrun. rewrite (by_url_run _ _ _ Hparse) in Hrun.
  destruct (coerce_parallelism (query_dict pu)) as [e|qs] eqn:Hcoerce; [discriminate|].
  assert (Hqs : dget "format" qs = None).
  { rewrite (coerce_parallelism_other _ _ "format" Hcoerce); [assumption|discriminate]. }
  split; [|split].
  - intros fmt Hd. apply discriminator_cases in Hd.
    destruct Hd as [[Hs ->] | [[Hs ->] | [[Hs ->] | [Hs ->]]]];
      rewrite Hs in Hrun; simpl in Hrun.
    + apply resolve_cassandra_ok in Hrun.
      destruct Hrun as (ks & tbl & cons & port & par & opts & _ & Hopts & Hrun).
      destruct (cassandra_options (Urllib.hostname pu) ks tbl cons (of_port port) par
                  (Some opts)) as (ro & Heq & Hformat & _).
      rewrite Heq in Hrun. eapply basic_read_keeps; eauto.
    + apply resolve_elastic_ok in Hrun.
      destruct Hrun as (idx & typ & q & fields & port & par & opts & _ & Hopts & Hrun).
      destruct (elastic_options (VStr (Urllib.netloc pu)) idx typ q fields (of_port port)
                  par (Some opts)) as (ro & Heq & _ & Hformat & _).
      rewrite Heq in Hrun. eapply basic_read_keeps; eauto.
    + apply resolve_mysql_ok in Hrun.
      destruct Hrun as (db & tbl & port & par & opts & _ & Hopts & Hrun).
      destruct (mysql_options (Urllib.hostname pu) db tbl (of_port port) par
                  (Some opts)) as (ro & Heq & Hformat & _).
      rewrite Heq in Hrun. eapply basic_read_keeps; eauto.
    + unfold _resolve_parquet in Hrun. steps_in Hrun.
      all: injection Hrun as <- _;
        match goal with H : kwargs _ _ = _ |- _ => apply kwargs_ok in H; subst end;
        do 2 eexists; (split; [reflexivity|]); simpl; now rewrite Hs.
  - intros Hs. rewrite Hs in Hrun. simpl in Hrun.
    unfold _resolve_csv in Hrun. steps_in Hrun.
    all: injection Hrun as <- _;
      match goal with H : kwargs _ _ = _ |- _ => apply kwargs_ok in H; subst end;
      do 2 eexists; (split; [reflexivity|]); simpl; (split; [reflexivity|]);
      rewrite ?dget_dset_other by discriminate;
      eauto using pop_or_none_other.
  - intros Hs. rewrite Hs in Hrun. simpl in Hrun.
    unfold _resolve_table in Hrun. steps_in Hrun.
    all: injection Hrun as <- _; eexists; reflexivity.
Qed.

Lemma basic_read_merged (reader_options options : dict) (parallelism : Value)
    (log : list Call) (df : DataFrame) :
  _basic_read reader_options (Some options) parallelism [] = (log, Ok df) ->
  exists merged rest,
    log = read_load merged :: rest
    /\ forall k, dget k options = None -> dget k merged = dget k reader_options.
Proof.
  intros H. rewrite basic_read_run in H. simpl in H. injection H as <- _.
  do 2 eexists. split; [reflexivity|].
  intros k Hk. now apply dget_dupdate_none.
Qed.

Lemma truthy_port (port : Z) : port <> 0 -> truthy (of_port (Some port)) = true.
Proof. intros H. simpl. now destruct (Z.eqb_spec port 0). Qed.

(** C10 (as amended).  Let [by_url] succeed on a URL whose authority carries
    a port other than 0.  For [elastic], unless the query sets [es.nodes] or
    [es.port] itself, the options loaded have [es.nodes] equal to the whole
    authority of the URL (the [netloc], port included) and [es.port] equal to
    the port.  For [cassandra] the host option is the bare [hostname], and
    for [mysql] the JDBC URL is built from the bare [hostname] and the port. *)
Theorem by_url_host_and_port :
  forall url parsed_url port log df,
    Urllib.urlparse url = Ok parsed_url ->
    Urllib.port parsed_url = Ok (Some port) ->
    port <> 0 ->
    run (by_url parse_schema url) = (log, Ok df) ->
    (Urllib.scheme parsed_url = "elastic" ->
     dget "es.nodes" (query_dict parsed_url) = None ->
     dget "es.port" (query_dict parsed_url) = None ->
     exists options rest,
       log = read_load options :: rest
       /\ dget "es.nodes" options = Some (VStr (Urllib.netloc parsed_url))
       /\ dget "es.port" options = Some (VStr (Py.str_of_int port)))
    /\ (Urllib.scheme parsed_url = "cassandra" ->
        dget "spark.cassandra.connection.host" (query_dict parsed_url) = None ->
        exists options rest,
          log = read_load options :: rest
          /\ dget "spark.cassandra.connection.host" options
             = Some (Urllib.hostname parsed_url))
    /\ (Urllib.scheme parsed_url = "mysql" ->
        dget "url" (query_dict parsed_url) = None ->
        exists options rest database,
          log = read_load options :: rest
          /\ dget "url" options
             = Some (VStr ("jdbc:mysql://" ++ str (Urllib.hostname parsed_url) ++
                           ":" ++ Py.str_of_int port ++ "/" ++ database))).
Proof.
  intros url pu port log df Hparse Hport Hnz Hrun.
  unfold run in Hrun. rewrite (by_url_run _ _ _ Hparse) in Hrun.
  destruct (coerce_parallelism (query_dict pu)) as [e|qs] eqn:Hcoerce; [discriminate|].
  pose proof (truthy_port port Hnz) as Htruthy.
  split; [|split]; intros Hs; rewrite Hs in Hrun; simpl in Hrun.
  - intros Hnodes Hesport.
    rewrite <- (coerce_parallelism_other _ _ "es.nodes" Hcoerce) in Hnodes by discriminate.
    rewrite <- (coerce_parallelism_other _ _ "es.port" Hcoerce) in Hesport by discriminate.
    apply resolve_elastic_ok in Hrun.
    destruct Hrun as (idx & typ & q & fields & port' & par & opts & Hport' & Hopts & Hrun).
    rewrite Hport in Hport'. injection Hport' as <-.
    destruct (elastic_options (VStr (Urllib.netloc pu)) idx typ q fields
                (of_port (Some port)) par (Some opts))
      as (ro & Heq & _ & _ & Hn & _ & _ & Hp).
    rewrite Heq in Hrun. apply basic_read_merged in Hrun.
    destruct Hrun as (merged & rest & -> & Hmerged).
    exists merged, rest. split; [reflexivity|].
    rewrite !Hmerged by auto. rewrite Hn, Hp, Htruthy. now split.
  - intros Hhost.
    rewrite <- (coerce_parallelism_other _ _ _ Hcoerce) in Hhost by discriminate.
    apply resolve_cassandra_ok in Hrun.
    destruct Hrun as (ks & tbl & cons & port' & par & opts & _ & Hopts & Hrun).
    destruct (cassandra_options (Urllib.hostname pu) ks tbl cons (of_port port') par
                (Some opts)) as (ro & Heq & _ & Hh & _).
    rewrite Heq in Hrun. apply basic_read_merged in Hrun.
    destruct Hrun as (merged & rest & -> & Hmerged).
    exists merged, rest. split; [reflexivity|].
    rewrite Hmerged by auto. exact Hh.
  - intros Hurl.
    rewrite <- (coerce_parallelism_other _ _ _ Hcoerce) in Hurl by discriminate.
    apply resolve_mysql_ok in Hrun.
    destruct Hrun as (db & tbl & port' & par & opts & Hport' & Hopts & Hrun).
    rewrite Hport in Hport'. injection Hport' as <-.
    destruct (mysql_options (Urllib.hostname pu) db tbl (of_port (Some port)) par
                (Some opts)) as (ro & Heq & _ & _ & Hu & _).
    rewrite Heq in Hrun. apply basic_read_merged in Hrun.
    destruct Hrun as (merged & rest & -> & Hmerged).
    exists merged, rest, db. split; [reflexivity|].
    rewrite Hmerged by auto. rewrite Hu, Htruthy. reflexivity.
Qed.

(* ===================================================================== *)
(** ** Merging the caller's options *)
(* ===================================================================== *)

Lemma dget_dmem (k : string) (v : Value) (d : dict) :
  dget k d = Some v -> dmem k d = true.
Proof.
  intros H. unfold dmem, Dict.mem. fold (dget k d). now rewrite H.
Qed.

(** [_basic_read] loads once, from the defaults with the caller's options
    laid over them. *)
Lemma basic_read_merged_over (reader_options additional : dict) (parallelism : Value) :
  NoDup (Dict.keys additional) ->
  exists merged rest df,
    run (_basic_read reader_options (Some additional) parallelism)
    = (read_load merged :: rest, Ok df)
    /\ merged_over reader_options additional merged
    /\ existsb is_load rest = false.
Proof.
  intros Hnd. unfold run. rewrite basic_read_run. simpl.
  do 3 eexists. split; [reflexivity|]. split; [split; [|split]|].
  - intros k. apply dmem_dupdate.
  - intros k v. now apply dget_dupdate_some.
  - intros k. apply dget_dupdate_none.
  - now destruct (truthy parallelism).
Qed.

(** C7 (as amended).  For the three readers that go through [_basic_read],
    with the caller's options a dictionary: the engine is asked to load once,
    with a map in which every key the reader requires is present, in which
    every key of the caller's options carries the caller's value, whether or
    not the reader has set that key itself, and in which all other keys
    carry the value the reader has set. *)
Theorem readers_merge_options :
  forall additional parallelism,
    NoDup (Dict.keys additional) ->
    (forall host keyspace table consistency port,
        exists defaults merged rest df,
          run (cassandra host keyspace table consistency port parallelism (Some additional))
          = (read_load merged :: rest, Ok df)
          /\ merged_over defaults additional merged
          /\ existsb is_load rest = false
          /\ dget "format" defaults = Some (VStr "org.apache.spark.sql.cassandra")
          /\ dget "spark.cassandra.connection.host" defaults = Some host
          /\ dget "keyspace" defaults = Some (VStr keyspace)
          /\ dget "table" defaults = Some (VStr table)
          /\ forall k, In k ["format"; "spark.cassandra.connection.host"; "keyspace"; "table"] ->
                       dmem k merged = true)
    /\ (forall host es_index es_type query fields port,
          exists defaults merged rest df,
            run (elastic host es_index es_type query fields port parallelism (Some additional))
            = (read_load merged :: rest, Ok df)
            /\ merged_over defaults additional merged
            /\ existsb is_load rest = false
            /\ dget "format" defaults = Some (VStr "org.elasticsearch.spark.sql")
            /\ dget "es.nodes" defaults = Some host
            /\ dget "path" defaults
               = Some (VStr (if truthy es_type then es_index ++ "/" ++ str es_type
                             else es_index))
            /\ forall k, In k ["path"; "format"; "es.nodes"; "es.query"; "es.read.metadata"] ->
                         dmem k merged = true)
    /\ (forall host database table port,
          exists defaults merged rest df,
            run (mysql host database table port parallelism (Some additional))
            = (read_load merged :: rest, Ok df)
            /\ merged_over defaults additional merged
            /\ existsb is_load rest = false
            /\ dget "format" defaults = Some (VStr "jdbc")
            /\ dget "dbtable" defaults = Some (VStr table)
            /\ forall k, In k ["format"; "driver"; "url"; "dbtable"] ->
                         dmem k merged = true).
Proof.
  intros additional par Hnd. split; [|split].
  - intros host ks tbl cons port.
    destruct (cassandra_options host ks tbl cons port par (Some additional))
      as (ro & Heq & Hf & Hh & Hk & Ht).
    destruct (basic_read_merged_over ro additional par Hnd)
      as (merged & rest & df & Hrun & Hm & Hrest).
    exists ro, merged, rest, df. unfold run in *. rewrite Heq.
    repeat (split; [assumption|]).
    intros k Hin. apply Hm. simpl in Hin.
    destruct Hin as [<-|[<-|[<-|[<-|[]]]]]; eauto using dget_dmem.
  - intros host idx typ q fields port.
    destruct (elastic_options host idx typ q fields port par (Some additional))
      as (ro & Heq & Hp & Hf & Hn & Hq & Hmeta & _).
    destruct (basic_read_merged_over ro additional par Hnd)
      as (merged & rest & df & Hrun & Hm & Hrest).
    exists ro, merged, rest, df. unfold run in *. rewrite Heq.
    repeat (split; [assumption|]).
    intros k Hin. apply Hm. simpl in Hin.
    destruct Hin as [<-|[<-|[<-|[<-|[<-|[]]]]]]; eauto using dget_dmem.
  - intros host db tbl port.
    destruct (mysql_options host db tbl port par (Some additional))
      as (ro & Heq & Hf & Hd & Hu & Ht).
    destruct (basic_read_merged_over ro additional par Hnd)
      as (merged & rest & df & Hrun & Hm & Hrest).
    exists ro, merged, rest, df. unfold run in *. rewrite Heq.
    repeat (split; [assumption|]).
    intros k Hin. apply Hm. simpl in Hin.
    destruct Hin as [<-|[<-|[<-|[<-|[]]]]]; eauto using dget_dmem.
Qed.

End ByUrl.

(* ===================================================================== *)
(** ** The theorems on concrete URLs *)
(* ===================================================================== *)

Lemma by_url_format_witness :
  exists parsed_url log df,
    Urllib.urlparse "cassandra://host:9042/ks/tbl?consistency=ONE&parallelism=3"
    = Ok parsed_url
    /\ dget "format" (query_dict parsed_url) = None
    /\ run (by_url atomic_schema
              "cassandra://host:9042/ks/tbl?consistency=ONE&parallelism=3")
       = (log, Ok df)
    /\ exists options rest,
         log = read_load options :: rest
         /\ dget "format" options = Some (VStr "org.apache.spark.sql.cassandra").
Proof.
  do 3 eexists.
  split; [cbv; reflexivity|]. split; [reflexivity|]. split; [cbv; reflexivity|].
  apply (proj1 (by_url_format atomic_schema
                  "cassandra://host:9042/ks/tbl?consistency=ONE&parallelism=3"
                  _ _ _ eq_refl eq_refl eq_refl)).
  reflexivity.
Defined.

(** C1 fails as it is written for [csv] and [table]: the [csv] resolver calls
    [spark.read.csv], whose keywords hold the path and the query parameters
    but no [format], and the [table] resolver calls [spark.table] with the
    table name alone. *)
Lemma by_url_format_counterexample :
  run (by_url atomic_schema "csv:///tmp/data?header=true")
  = ([read_csv [("path", VStr "/tmp/data"); ("header", VStr "true")]],
     Ok (mkDataFrame (from_csv [("path", VStr "/tmp/data"); ("header", VStr "true")]) []))
  /\ dget "format" [("path", VStr "/tmp/data"); ("header", VStr "true")] = None
  /\ run (by_url atomic_schema "table://my_table")
     = ([table "my_table"], Ok (mkDataFrame (from_table "my_table") [])).
Proof. repeat split; reflexivity. Qed.







Lemma readers_merge_options_witness :
  NoDup (Dict.keys [("spark.cassandra.connection.compression", VStr "LZ4")])
  /\ exists defaults merged rest df,
       run (cassandra (VStr "host") "ks" "tbl" (VStr "ONE") VNone VNone
              (Some [("spark.cassandra.connection.compression", VStr "LZ4")]))
       = (read_load merged :: rest, Ok df)
       /\ merged_over defaults
            [("spark.cassandra.connection.compression", VStr "LZ4")] merged.
Proof.
  assert (Hnd : NoDup (Dict.keys [("spark.cassandra.connection.compression", VStr "LZ4")])).
  { simpl. constructor; [intros []|constructor]. }
  split; [exact Hnd|].
  destruct (proj1 (readers_merge_options
                     [("spark.cassandra.connection.compression", VStr "LZ4")] VNone Hnd)
              (VStr "host") "ks" "tbl" (VStr "ONE") VNone)
    as (defaults & merged & rest & df & Hrun & Hmerged & _).
  exists defaults, merged, rest, df. split; assumption.
Defined.

(** C7 fails as it is written: nothing protects the keys the resolver has
    set.  Query parameters named [format], [keyspace] and [table] replace the
    values taken from the scheme and the path of the URL. *)
Lemma readers_merge_options_counterexample :
  run (by_url atomic_schema "cassandra://host/ks/tbl?keyspace=other&table=users&format=csv")
  = ([read_load [ ("format", VStr "csv");
                  ("spark.cassandra.connection.host", VStr "host");
                  ("keyspace", VStr "other");
                  ("table", VStr "users") ]],
     Ok (mkDataFrame
           (from_load [ ("format", VStr "csv");
                        ("spark.cassandra.connection.host", VStr "host");
                        ("keyspace", VStr "other");
                        ("table", VStr "users") ])
           [])).
Proof. reflexivity. Qed.

Lemma by_url_host_and_port_witness :
  exists parsed_url log df,
    Urllib.urlparse "elastic://es.host:9200/idx/typ" = Ok parsed_url
    /\ Urllib.port parsed_url = Ok (Some 9200)
    /\ 9200 <> 0
    /\ run (by_url atomic_schema "elastic://es.host:9200/idx/typ") = (log, Ok df)
    /\ exists options rest,
         log = read_load options :: rest
         /\ dget "es.nodes" options = Some (VStr "es.host:9200")
         /\ dget "es.port" options = Some (VStr "9200").
Proof.
  assert (Hnz : 9200 <> 0) by discriminate.
  do 3 eexists.
  split; [cbv; reflexivity|]. split; [reflexivity|]. split; [exact Hnz|].
  split; [cbv; reflexivity|].
  apply (proj1 (by_url_host_and_port atomic_schema "elastic://es.host:9200/idx/typ"
                  _ 9200 _ _ eq_refl eq_refl Hnz eq_refl)); reflexivity.
Defined.

(** C10 fails as it is written in two places.  A port written as 0 is
    parsed, but is falsy, so [es.port] is not set; and a query parameter
    named [es.nodes] replaces the authority of the URL. *)
Lemma by_url_host_and_port_counterexample :
  Urllib.port (Urllib.mkParseResult "elastic" "es.host:0" "/idx" "" "") = Ok (Some 0)
  /\ run (by_url atomic_schema "elastic://es.host:0/idx")
     = ([read_load [ ("path", VStr "idx");
                     ("format", VStr "org.elasticsearch.spark.sql");
                     ("es.nodes", VStr "es.host:0");
                     ("es.query", VStr "");
                     ("es.read.metadata", VStr "true") ]],
        Ok (mkDataFrame
              (from_load [ ("path", VStr "idx");
                           ("format", VStr "org.elasticsearch.spark.sql");
                           ("es.nodes", VStr "es.host:0");
                           ("es.query", VStr "");
                           ("es.read.metadata", VStr "true") ])
              []))
  /\ fst (run (by_url atomic_schema "elastic://es.host:9200/idx?es.nodes=other"))
     = [read_load [ ("path", VStr "idx");
                    ("format", VStr "org.elasticsearch.spark.sql");
                    ("es.nodes", VStr "other");
                    ("es.query", VStr "");
                    ("es.read.metadata", VStr "true");
                    ("es.port", VStr "9200") ]].
Proof. repeat split; reflexivity. Qed.

(* ===================================================================== *)
(** ** More facts about dictionaries *)
(* ===================================================================== *)

Section DictInvariants.

Implicit Types (d e : dict) (k : string) (v : Value).

Lemma dget_dremove_diff k k' d : k <> k' -> dget k (dremove k' d) = dget k d.
Proof.
  intros Hne. induction d as [|[k0 v0] r IH]; simpl; auto.
  destruct (String.eqb_spec k0 k'); simpl.
  - subst. destruct (String.eqb_spec k' k); congruence.
  - destruct (String.eqb k0 k); auto.
Qed.

Lemma dget_not_in_keys k d : dget k d = None <-> ~ In k (Dict.keys d).
Proof.
  induction d as [|[k0 v0] r IH]; simpl; [tauto|].
  destruct (String.eqb_spec k0 k); [split; [discriminate|tauto]|].
  rewrite IH. tauto.
Qed.

Lemma keys_dset k v d :
  Dict.keys (dset k v d)
  = if dmem k d then Dict.keys d else (Dict.keys d ++ [k])%list.
Proof.
  unfold dmem, Dict.mem. induction d as [|[k0 v0] r IH]; simpl; [reflexivity|].
  destruct (String.eqb_spec k0 k); simpl; [reflexivity|].
  fold (dset k v r). rewrite IH.
  fold (dget k r). now destruct (dget k r).
Qed.

Lemma NoDup_keys_dset k v d : NoDup (Dict.keys d) -> NoDup (Dict.keys (dset k v d)).
Proof.
  intros H. rewrite keys_dset. destruct (dmem k d) eqn:E; [assumption|].
  apply NoDup_app; [assumption|repeat constructor; intros []|].
  intros x Hx [Hk|[]]. subst x.
  unfold dmem, Dict.mem in E. fold (dget k d) in E.
  destruct (dget k d) eqn:G; [discriminate|].
  now apply dget_not_in_keys in G.
Qed.

Lemma NoDup_keys_of_pairs (l : list (string * Value)) :
  NoDup (Dict.keys (Dict.of_pairs String.eqb l)).
Proof.
  unfold Dict.of_pairs, Dict.update.
  assert (H : forall d, NoDup (Dict.keys d) ->
                        NoDup (Dict.keys (fold_left (fun acc kv => Dict.set String.eqb (fst kv) (snd kv) acc) l d))).
  { induction l as [|[k v] r IH]; intros d Hd; simpl; [assumption|].
    apply IH. now apply NoDup_keys_dset. }
  apply H. constructor.
Qed.

Lemma In_keys_dremove k k' d : In k (Dict.keys (dremove k' d)) -> In k (Dict.keys d).
Proof.
  induction d as [|[k0 v0] r IH]; simpl; [tauto|].
  destruct (String.eqb k0 k'); simpl; tauto.
Qed.

Lemma NoDup_keys_dremove k d : NoDup (Dict.keys d) -> NoDup (Dict.keys (dremove k d)).
Proof.
  induction d as [|[k0 v0] r IH]; simpl; [auto|].
  intros H. inversion H as [|? ? Hnotin Hnd]; subst.
  destruct (String.eqb k0 k); simpl; [assumption|].
  constructor; [|auto]. intros Hin. apply Hnotin. eapply In_keys_dremove, Hin.
Qed.

(** In a dictionary, a key that was removed is gone. *)
Lemma dget_dremove_same k d : NoDup (Dict.keys d) -> dget k (dremove k d) = None.
Proof.
  induction d as [|[k0 v0] r IH]; simpl; [reflexivity|].
  intros H. inversion H as [|? ? Hnotin Hnd]; subst.
  destruct (String.eqb_spec k0 k); simpl.
  - subst. now apply dget_not_in_keys.
  - destruct (String.eqb_spec k0 k); [congruence|auto].
Qed.

Lemma pop_or_none_spec k d : pop_or_none k d = (get_or_none k d, dremove k d).
Proof.
  unfold pop_or_none, get_or_none, dpop, Dict.pop. fold (dget k d).
  now destruct (dget k d).
Qed.

Lemma dget_app_left k d e : dget k d = None -> dget k (d ++ e)%list = dget k e.
Proof.
  induction d as [|[k0 v0] r IH]; simpl; [reflexivity|].
  destruct (String.eqb k0 k); [discriminate|auto].
Qed.

End DictInvariants.

(* ===================================================================== *)
(** ** The resolvers, step by step *)
(* ===================================================================== *)

Section Resolution.

Arguments pop_or_none : simpl never.
Arguments coerce_parallelism : simpl never.
Arguments query_dict : simpl never.
Arguments dupdate : simpl never.
Arguments list_index : simpl never.
Arguments Urllib.port : simpl never.
Arguments Urllib.hostname : simpl never.
Arguments Py.split : simpl never.
Arguments int : simpl never.
Arguments str : simpl never.
Arguments kwargs : simpl never.
Arguments _basic_read : simpl never.
Arguments cassandra : simpl never.
Arguments elastic : simpl never.
Arguments mysql : simpl never.
Arguments get_or_none : simpl never.
Arguments split_value : simpl never.

Lemma dremove_absent (k : string) (d : dict) : dget k d = None -> dremove k d = d.
Proof.
  induction d as [|[k0 v0] r IH]; simpl; [reflexivity|].
  destruct (String.eqb k0 k); [discriminate|].
  intros H. f_equal. now apply IH.
Qed.

Lemma dmem_false_absent (k : string) (d : dict) : dmem k d = false -> dget k d = None.
Proof.
  unfold dmem, Dict.mem. fold (dget k d). now destruct (dget k d).
Qed.

Lemma list_index_nth (l : list string) (i : nat) :
  (i < length l)%nat -> list_index l i = Ok (nth i l "").
Proof.
  intros H. unfold list_index.
  destruct (nth_error l i) eqn:E.
  - now rewrite (nth_error_nth _ _ _ E).
  - apply nth_error_None in E. lia.
Qed.

Lemma list_index_short (l : list string) (i : nat) :
  (length l <= i)%nat -> list_index l i = Raise (IndexError "list index out of range").
Proof.
  intros H. unfold list_index.
  apply nth_error_None in H. now rewrite H.
Qed.

(** [_resolve_cassandra]: the two path segments, then the port, then the
    reader, with [consistency] and [parallelism] taken out of the query. *)
Lemma resolve_cassandra_eq (parsed_url : Urllib.ParseResult) (parsed_qs : dict)
    (log : list Call) :
  let segments := Py.split "/" (Urllib.path parsed_url) in
  let rest := dremove "consistency" parsed_qs in
  _resolve_cassandra parsed_url parsed_qs log =
    match list_index segments 1 with
    | inl e => (log, inl e)
    | inr keyspace =>
        match list_index segments 2 with
        | inl e => (log, inl e)
        | inr tbl =>
            match Urllib.port parsed_url with
            | inl e => (log, inl e)
            | inr port =>
                cassandra (Urllib.hostname parsed_url) keyspace tbl
                  (get_or_none "consistency" parsed_qs) (of_port port)
                  (get_or_none "parallelism" rest)
                  (Some (dremove "parallelism" rest)) log
            end
        end
    end.
Proof.
  unfold _resolve_cassandra. eff_unfold. simpl.
  destruct (list_index _ 1); [reflexivity|].
  destruct (list_index _ 2); [reflexivity|].
  rewrite pop_or_none_spec.
  destruct (Urllib.port parsed_url); [reflexivity|].
  now rewrite pop_or_none_spec.
Qed.

Lemma resolve_mysql_eq (parsed_url : Urllib.ParseResult) (parsed_qs : dict)
    (log : list Call) :
  let segments := Py.split "/" (Urllib.path parsed_url) in
  _resolve_mysql parsed_url parsed_qs log =
    match list_index segments 1 with
    | inl e => (log, inl e)
    | inr database =>
        match list_index segments 2 with
        | inl e => (log, inl e)
        | inr tbl =>
            match Urllib.port parsed_url with
            | inl e => (log, inl e)
            | inr port =>
                mysql (Urllib.hostname parsed_url) database tbl (of_port port)
                  (get_or_none "parallelism" parsed_qs)
                  (Some (dremove "parallelism" parsed_qs)) log
            end
        end
    end.
Proof.
  unfold _resolve_mysql. eff_unfold. simpl.
  destruct (list_index _ 1); [reflexivity|].
  destruct (list_index _ 2); [reflexivity|].
  destruct (Urllib.port parsed_url); [reflexivity|].
  now rewrite pop_or_none_spec.
Qed.

(** [_resolve_elastic]: [q] and [fields] are taken out of the query first;
    a key that is absent is removed to no effect. *)
Lemma resolve_elastic_eq (parsed_url : Urllib.ParseResult) (parsed_qs : dict)
    (log : list Call) :
  let segments := Py.split "/" (Urllib.path parsed_url) in
  let query := if dmem "q" parsed_qs
               then "?q=" ++ str (get_or_none "q" parsed_qs) else "" in
  let qs1 := dremove "q" parsed_qs in
  let qs2 := dremove "fields" qs1 in
  _resolve_elastic parsed_url parsed_qs log =
    match (if dmem "fields" qs1
           then rbind (split_value (get_or_none "fields" qs1)) (fun l => Ok (Some l))
           else Ok None) with
    | inl e => (log, inl e)
    | inr fields =>
        match list_index segments 1 with
        | inl e => (log, inl e)
        | inr es_index =>
            match Urllib.port parsed_url with
            | inl e => (log, inl e)
            | inr port =>
                elastic (VStr (Urllib.netloc parsed_url)) es_index
                  (if (2 <? length segments)%nat then VStr (nth 2 segments "") else VNone)
                  query fields (of_port port)
                  (get_or_none "parallelism" qs2)
                  (Some (dremove "parallelism" qs2)) log
            end
        end
    end.
Proof.
  unfold _resolve_elastic. eff_unfold. simpl.
  destruct (dmem "q" parsed_qs) eqn:Hq.
  - rewrite pop_or_none_spec. simpl.
    destruct (dmem "fields" (dremove "q" parsed_qs)) eqn:Hf.
    + rewrite pop_or_none_spec. simpl.
      destruct (split_value _); simpl; [reflexivity|].
      destruct (list_index _ 1); [reflexivity|].
      destruct (2 <? _)%nat eqn:Hlen; simpl.
      * apply Nat.ltb_lt in Hlen. rewrite (list_index_nth _ _ Hlen). simpl.
        destruct (Urllib.port parsed_url); [reflexivity|].
        now rewrite pop_or_none_spec.
      * destruct (Urllib.port parsed_url); [reflexivity|].
        now rewrite pop_or_none_spec.
    + rewrite (dremove_absent "fields" _ (dmem_false_absent _ _ Hf)). simpl.
      destruct (list_index _ 1); [reflexivity|].
      destruct (2 <? _)%nat eqn:Hlen; simpl.
      * apply Nat.ltb_lt in Hlen. rewrite (list_index_nth _ _ Hlen). simpl.
        destruct (Urllib.port parsed_url); [reflexivity|].
        now rewrite pop_or_none_spec.
      * destruct (Urllib.port parsed_url); [reflexivity|].
        now rewrite pop_or_none_spec.
  - rewrite (dremove_absent "q" _ (dmem_false_absent _ _ Hq)).
    destruct (dmem "fields" parsed_qs) eqn:Hf.
    + rewrite pop_or_none_spec. simpl.
      destruct (split_value _); simpl; [reflexivity|].
      destruct (list_index _ 1); [reflexivity|].
      destruct (2 <? _)%nat eqn:Hlen; simpl.
      * apply Nat.ltb_lt in Hlen. rewrite (list_index_nth _ _ Hlen). simpl.
        destruct (Urllib.port parsed_url); [reflexivity|].
        now rewrite pop_or_none_spec.
      * destruct (Urllib.port parsed_url); [reflexivity|].
        now rewrite pop_or_none_spec.
    + rewrite (dremove_absent "fields" _ (dmem_false_absent _ _ Hf)). simpl.
      destruct (list_index _ 1); [reflexivity|].
      destruct (2 <? _)%nat eqn:Hlen; simpl.
      * apply Nat.ltb_lt in Hlen. rewrite (list_index_nth _ _ Hlen). simpl.
        destruct (Urllib.port parsed_url); [reflexivity|].
        now rewrite pop_or_none_spec.
      * destruct (Urllib.port parsed_url); [reflexivity|].
        now rewrite pop_or_none_spec.
Qed.

Lemma resolve_parquet_eq (parsed_url : Urllib.ParseResult) (parsed_qs : dict)
    (log : list Call) :
  let parallelism := get_or_none "parallelism" parsed_qs in
  _resolve_parquet parsed_url parsed_qs log =
    match kwargs [ ("path", VStr (Urllib.path parsed_url));
                   ("format", VStr (Urllib.scheme parsed_url)) ]
                 (dremove "parallelism" parsed_qs) with
    | inl e => (log, inl e)
    | inr options =>
        if truthy parallelism
        then match int parallelism with
             | inl e => ((log ++ [read_load options])%list, inl e)
             | inr n => ((log ++ [read_load options; coalesce (VInt n)])%list,
                         Ok (mkDataFrame (from_load options) [coalesce (VInt n)]))
             end
        else ((log ++ [read_load options])%list, Ok (mkDataFrame (from_load options) []))
    end.
Proof.
  unfold _resolve_parquet. rewrite pop_or_none_spec. eff_unfold. simpl.
  destruct (kwargs _ _); [reflexivity|].
  destruct (truthy _); [|reflexivity].
  destruct (int _); eff_simpl; [reflexivity|].
  now rewrite <- app_assoc.
Qed.

Lemma resolve_csv_eq (parse_schema : Value -> result DataType)
    (parsed_url : Urllib.ParseResult) (parsed_qs : dict) (log : list Call) :
  let parallelism := get_or_none "parallelism" parsed_qs in
  let rest := dremove "parallelism" parsed_qs in
  _resolve_csv parse_schema parsed_url parsed_qs log =
    match (if dmem "schema" rest
           then rbind (parse_schema (get_or_none "schema" rest))
                  (fun t => Ok (dset "schema" (VType t) (dremove "schema" rest)))
           else Ok rest) with
    | inl e => (log, inl e)
    | inr rest' =>
        match kwargs [("path", VStr (Urllib.path parsed_url))] rest' with
        | inl e => (log, inl e)
        | inr options =>
            if truthy parallelism
            then match int parallelism with
                 | inl e => ((log ++ [read_csv options])%list, inl e)
                 | inr n => ((log ++ [read_csv options; coalesce (VInt n)])%list,
                             Ok (mkDataFrame (from_csv options) [coalesce (VInt n)]))
                 end
            else ((log ++ [read_csv options])%list, Ok (mkDataFrame (from_csv options) []))
        end
    end.
Proof.
  unfold _resolve_csv. rewrite pop_or_none_spec. eff_unfold. simpl.
  destruct (dmem "schema" (dremove "parallelism" parsed_qs)).
  - rewrite pop_or_none_spec. simpl.
    destruct (parse_schema _); simpl; [reflexivity|].
    destruct (kwargs _ _); [reflexivity|].
    destruct (truthy _); [|reflexivity].
    destruct (int _); eff_simpl; [reflexivity|].
    now rewrite <- app_assoc.
  - eff_simpl. destruct (kwargs _ _); [reflexivity|].
    destruct (truthy _); [|reflexivity].
    destruct (int _); eff_simpl; [reflexivity|].
    now rewrite <- app_assoc.
Qed.

Lemma resolve_table_eq (parsed_url : Urllib.ParseResult) (parsed_qs : dict)
    (log : list Call) :
  let parallelism := get_or_none "parallelism" parsed_qs in
  let name := Urllib.netloc parsed_url in
  _resolve_table parsed_url parsed_qs log =
    if truthy parallelism
    then match int parallelism with
         | inl e => ((log ++ [table name])%list, inl e)
         | inr n => ((log ++ [table name; coalesce (VInt n)])%list,
                     Ok (mkDataFrame (from_table name) [coalesce (VInt n)]))
         end
    else ((log ++ [table name])%list, Ok (mkDataFrame (from_table name) [])).
Proof.
  unfold _resolve_table. eff_unfold. simpl. rewrite pop_or_none_spec.
  destruct (truthy _); [|reflexivity].
  destruct (int _); eff_simpl; [reflexivity|].
  now rewrite <- app_assoc.
Qed.

(** The three readers in full: one [spark.read.load] with the caller's
    options laid over the reader's own, then the coalesce; and what the
    reader's own options are. *)
Lemma cassandra_reads (host : Value) (keyspace tbl : string)
    (consistency port parallelism : Value) (options : option dict) (log : list Call) :
  exists defaults,
    cassandra host keyspace tbl consistency port parallelism options log
    = ((log ++ read_load (dupdate defaults (or_empty options))
            :: coalesce_calls parallelism)%list,
       Ok (mkDataFrame (from_load (dupdate defaults (or_empty options)))
             (coalesce_calls parallelism)))
    /\ dget "format" defaults = Some (VStr "org.apache.spark.sql.cassandra")
    /\ dget "spark.cassandra.connection.host" defaults = Some host
    /\ dget "keyspace" defaults = Some (VStr keyspace)
    /\ dget "table" defaults = Some (VStr tbl)
    /\ dget "spark.cassandra.input.consistency.level" defaults
       = (if truthy consistency then Some consistency else None)
    /\ dget "spark.cassandra.connection.port" defaults
       = (if truthy port then Some (VStr (str port)) else None)
    /\ forall k, dget k defaults <> None ->
                 In k [ "format"; "spark.cassandra.connection.host"; "keyspace"; "table";
                        "spark.cassandra.input.consistency.level";
                        "spark.cassandra.connection.port" ].
Proof.
  unfold cassandra. rewrite basic_read_run. unfold coalesce_calls.
  destruct (truthy consistency), (truthy port); simpl;
    eexists; (split; [reflexivity|]); repeat (split; [reflexivity|]);
    intros k; unfold dget; cbn [Dict.get In];
    repeat match goal with
           | |- context [String.eqb ?a k] =>
               destruct (String.eqb_spec a k); [subst; tauto|]
           end; intros H; congruence.
Qed.

Lemma elastic_reads (host : Value) (es_index : string) (es_type : Value)
    (query : string) (fields : option (list string)) (port parallelism : Value)
    (options : option dict) (log : list Call) :
  exists defaults,
    elastic host es_index es_type query fields port parallelism options log
    = ((log ++ read_load (dupdate defaults (or_empty options))
            :: coalesce_calls parallelism)%list,
       Ok (mkDataFrame (from_load (dupdate defaults (or_empty options)))
             (coalesce_calls parallelism)))
    /\ dget "path" defaults
       = Some (VStr (if truthy es_type then es_index ++ "/" ++ str es_type else es_index))
    /\ dget "format" defaults = Some (VStr "org.elasticsearch.spark.sql")
    /\ dget "es.nodes" defaults = Some host
    /\ dget "es.query" defaults = Some (VStr query)
    /\ dget "es.read.metadata" defaults = Some (VStr "true")
    /\ dget "es.read.field.include" defaults
       = match fields with
         | Some (f :: fs) => Some (VStr (Py.join "," (f :: fs)))
         | _ => None
         end
    /\ dget "es.port" defaults = (if truthy port then Some (VStr (str port)) else None)
    /\ forall k, dget k defaults <> None ->
                 In k [ "path"; "format"; "es.nodes"; "es.query"; "es.read.metadata";
                        "es.read.field.include"; "es.port" ].
Proof.
  unfold elastic. rewrite basic_read_run. unfold coalesce_calls.
  destruct fields as [[|f fs]|], (truthy port); simpl;
    eexists; (split; [reflexivity|]); repeat (split; [reflexivity|]);
    intros k; unfold dget; cbn [Dict.get In];
    repeat match goal with
           | |- context [String.eqb ?a k] =>
               destruct (String.eqb_spec a k); [subst; tauto|]
           end; intros H; congruence.
Qed.

Lemma mysql_reads (host : Value) (database tbl : string) (port parallelism : Value)
    (options : option dict) (log : list Call) :
  exists defaults,
    mysql host database tbl port parallelism options log
    = ((log ++ read_load (dupdate defaults (or_empty options))
            :: coalesce_calls parallelism)%list,
       Ok (mkDataFrame (from_load (dupdate defaults (or_empty options)))
             (coalesce_calls parallelism)))
    /\ dget "format" defaults = Some (VStr "jdbc")
    /\ dget "driver" defaults = Some (VStr "com.mysql.jdbc.Driver")
    /\ dget "url" defaults
       = Some (VStr ("jdbc:mysql://" ++ str host ++
                     (if truthy port then ":" ++ str port else "") ++ "/" ++ database))
    /\ dget "dbtable" defaults = Some (VStr tbl)
    /\ forall k, dget k defaults <> None -> In k ["format"; "driver"; "url"; "dbtable"].
Proof.
  unfold mysql. rewrite basic_read_run. unfold coalesce_calls.
  eexists; (split; [reflexivity|]); repeat (split; [reflexivity|]).
  intros k; unfold dget; cbn [Dict.get In].
  repeat match goal with
         | |- context [String.eqb ?a k] =>
             destruct (String.eqb_spec a k); [subst; tauto|]
         end; intros H; congruence.
Qed.

End Resolution.

(* ===================================================================== *)
(** ** by_url: the query as the resolvers see it *)
(* ===================================================================== *)

Section Query.

Arguments coerce_parallelism : simpl never.
Arguments query_dict : simpl never.
Arguments int : simpl never.
Arguments get_or_none : simpl never.

Lemma query_dict_NoDup (parsed_url : Urllib.ParseResult) :
  NoDup (Dict.keys (query_dict parsed_url)).
Proof. unfold query_dict. apply NoDup_keys_of_pairs. Qed.

Lemma coerce_parallelism_NoDup (d parsed_qs : dict) :
  coerce_parallelism d = Ok parsed_qs ->
  NoDup (Dict.keys d) -> NoDup (Dict.keys parsed_qs).
Proof.
  unfold coerce_parallelism. intros H Hnd.
  destruct (dget "parallelism" d) as [v|]; [|now injection H as <-].
  destruct (int v); simpl in H; [discriminate|].
  injection H as <-. now apply NoDup_keys_dset.
Qed.

Lemma coerce_parallelism_requested (parsed_url : Urllib.ParseResult) (parsed_qs : dict) :
  coerce_parallelism (query_dict parsed_url) = Ok parsed_qs ->
  get_or_none "parallelism" parsed_qs = requested_parallelism parsed_url.
Proof.
  unfold coerce_parallelism, requested_parallelism, get_or_none. intros H.
  destruct (dget "parallelism" (query_dict parsed_url)) as [v|] eqn:E.
  - destruct (int v); simpl in H; [discriminate|].
    injection H as <-. now rewrite dget_dset_same.
  - injection H as <-. now rewrite E.
Qed.

Lemma requested_parallelism_int (parsed_url : Urllib.ParseResult) :
  requested_parallelism parsed_url = VNone
  \/ exists n, requested_parallelism parsed_url = VInt n.
Proof.
  unfold requested_parallelism.
  destruct (dget "parallelism" (query_dict parsed_url)) as [v|]; [|now left].
  destruct (int v); [now left|right; eauto].
Qed.

Lemma get_or_none_dremove (k k' : string) (d : dict) :
  k <> k' -> get_or_none k (dremove k' d) = get_or_none k d.
Proof. intros H. unfold get_or_none. now rewrite dget_dremove_diff. Qed.

Lemma dget_dupdate_from (k : string) (v : Value) (d l : dict) :
  dget k (dupdate d l) = Some v -> dget k d = Some v \/ In (k, v) l.
Proof.
  revert d. unfold dupdate, Dict.update.
  induction l as [|[k0 v0] r IH]; intros d; simpl; [tauto|].
  intros H. apply IH in H. destruct H as [H|H]; [|tauto].
  fold (dset k0 v0 d) in H. fold (dget k (dset k0 v0 d)) in H. fold (dget k d).
  destruct (String.eqb_spec k0 k).
  - subst. rewrite dget_dset_same in H. injection H as <-. tauto.
  - rewrite dget_dset_other in H by assumption. tauto.
Qed.

Lemma unquote_nonempty (c : ascii) (r : string) : Urllib.unquote (String c r) <> "".
Proof.
  destruct r as [|h1 [|h2 r']]; simpl; try discriminate.
  destruct (if Ascii.eqb c "%" then Urllib.hex_value h1 else None);
    destruct (Urllib.hex_value h2); discriminate.
Qed.

Lemma parse_qsl_nonempty (qs k s : string) :
  In (k, s) (Urllib.parse_qsl qs) -> s <> "".
Proof.
  unfold Urllib.parse_qsl. rewrite in_flat_map. intros [x [_ H]].
  unfold Urllib.parse_field in H.
  destruct (Py.partition "=" x) as [[n found] v].
  destruct found; [|destruct H].
  destruct v as [|c v']; [destruct H|].
  destruct H as [H|[]]. injection H as _ <-.
  simpl. apply unquote_nonempty.
Qed.

Lemma split_nonempty (c : ascii) (s : string) : Py.split c s <> [].
Proof.
  destruct s as [|d r]; simpl; [discriminate|].
  destruct (Ascii.eqb d c); [discriminate|].
  destruct (Py.split c r); discriminate.
Qed.

Lemma join_cons_char (sep : string) (d : ascii) (w : string) (ws : list string) :
  Py.join sep (String d w :: ws) = String d (Py.join sep (w :: ws)).
Proof. destruct ws; reflexivity. Qed.

(** Splitting at a character and joining with it again gives the text
    back. *)
Lemma join_split (c : ascii) (s : string) : Py.join (Py.str1 c) (Py.split c s) = s.
Proof.
  induction s as [|d r IH]; [reflexivity|].
  cbn [Py.split]. destruct (Ascii.eqb_spec d c).
  - subst. pose proof (split_nonempty c r) as Hne.
    destruct (Py.split c r) as [|w ws]; [congruence|].
    change (Py.join (Py.str1 c) ("" :: w :: ws))
      with (String c (Py.join (Py.str1 c) (w :: ws))).
    now rewrite IH.
  - pose proof (split_nonempty c r) as Hne.
    destruct (Py.split c r) as [|w ws]; [congruence|].
    rewrite join_cons_char. now rewrite IH.
Qed.

End Query.

(* ===================================================================== *)
(** ** by_url: further properties *)
(* ===================================================================== *)

Section ByUrlProperties.

Variable parse_schema : Value -> result DataType.

Arguments pop_or_none : simpl never.
Arguments coerce_parallelism : simpl never.
Arguments query_dict : simpl never.
Arguments dupdate : simpl never.
Arguments list_index : simpl never.
Arguments Urllib.port : simpl never.
Arguments Urllib.hostname : simpl never.
Arguments Py.split : simpl never.
Arguments int : simpl never.
Arguments str : simpl never.
Arguments kwargs : simpl never.
Arguments _basic_read : simpl never.
Arguments cassandra : simpl never.
Arguments elastic : simpl never.
Arguments mysql : simpl never.
Arguments get_or_none : simpl never.
Arguments split_value : simpl never.
Arguments requested_parallelism : simpl never.

Lemma query_dict_values (parsed_url : Urllib.ParseResult) (k : string) (v : Value) :
  dget k (query_dict parsed_url) = Some v ->
  exists s, v = VStr s /\ s <> "".
Proof.
  revert parsed_url k v. intros pu k v H. unfold query_dict in H.
  apply (dget_dupdate_from k v []) in H. destruct H as [H|H]; [discriminate|].
  apply in_map_iff in H. destruct H as [[k' s] [H Hin]].
  injection H as <- <-. simpl. exists s. split; [reflexivity|].
  eapply parse_qsl_nonempty, Hin.
Qed.

(** X1.  A query parameter whose value is empty does not reach the
    resolvers: every value in the dictionary [by_url] builds from the query
    string is a non-empty string. *)
Theorem query_values_not_blank :
  forall parsed_url k v,
    dget k (query_dict parsed_url) = Some v ->
    exists s, v = VStr s /\ s <> "".
Proof. exact query_dict_values. Qed.

Lemma by_url_parse_error (url : string) (e : Exception) (log : list Call) :
  Urllib.urlparse url = Raise e -> by_url parse_schema url log = (log, Raise e).
Proof. intros H. unfold by_url. eff_unfold. now rewrite H. Qed.

(** The tail of the resolvers that load by themselves: the coalesce for a
    parallelism that is an integer or absent. *)
Lemma coalesce_tail (parallelism : Value) (c : Call) (origin : Source)
    (log : list Call) (r : result DataFrame) :
  parallelism = VNone \/ (exists n, parallelism = VInt n) ->
  (if truthy parallelism
   then match int parallelism with
        | inl e => ([c], inl e)
        | inr n => ([c; coalesce (VInt n)], Ok (mkDataFrame origin [coalesce (VInt n)]))
        end
   else ([c], Ok (mkDataFrame origin []))) = (log, r) ->
  log = c :: coalesce_calls parallelism
  /\ r = Ok (mkDataFrame origin (coalesce_calls parallelism)).
Proof.
  unfold coalesce_calls.
  intros [-> | [n ->]]; simpl.
  - intros [= <- <-]. now split.
  - destruct (negb (n =? 0)); intros [= <- <-]; now split.
Qed.

(** What every resolver does with the engine: nothing if it fails, one load
    and the coalesce if it returns. *)
Lemma resolver_outcome (scheme : string)
    (resolve : Urllib.ParseResult -> dict -> Eff DataFrame)
    (parsed_url : Urllib.ParseResult) (parsed_qs : dict)
    (log : list Call) (r : result DataFrame) :
  resolver parse_schema scheme = Some resolve ->
  get_or_none "parallelism" parsed_qs = VNone
  \/ (exists n, get_or_none "parallelism" parsed_qs = VInt n) ->
  resolve parsed_url parsed_qs [] = (log, r) ->
  match r with
  | inl _ => log = []
  | inr df =>
      exists c,
        is_load c = true
        /\ log = c :: coalesce_calls (get_or_none "parallelism" parsed_qs)
        /\ applied df = coalesce_calls (get_or_none "parallelism" parsed_qs)
  end.
Proof.
  intros Hres Hpar Hrun. unfold resolver in Hres.
  destruct (String.eqb scheme "cassandra");
    [|destruct (String.eqb scheme "csv");
      [|destruct (String.eqb scheme "elastic");
        [|destruct (String.eqb scheme "mysql");
          [|destruct (String.eqb scheme "parquet");
            [|destruct (String.eqb scheme "table"); [|discriminate]]]]]];
    injection Hres as <-.
  - rewrite resolve_cassandra_eq in Hrun.
    destruct (list_index _ 1); [now injection Hrun as <- <-|].
    destruct (list_index _ 2); [now injection Hrun as <- <-|].
    destruct (Urllib.port parsed_url) as [e|port]; [now injection Hrun as <- <-|].
    match type of Hrun with
    | cassandra ?h ?k ?t ?c ?p ?par ?o _ = _ =>
        destruct (cassandra_reads h k t c p par o []) as (defaults & Heq & _)
    end.
    rewrite Heq in Hrun. simpl in Hrun. injection Hrun as <- <-.
    rewrite get_or_none_dremove by discriminate.
    eexists; split; [|split]; [|reflexivity|reflexivity]; reflexivity.
  - rewrite resolve_csv_eq in Hrun.
    match type of Hrun with
    | match ?x with _ => _ end = _ => destruct x; [now injection Hrun as <- <-|]
    end.
    destruct (kwargs _ _); [now injection Hrun as <- <-|].
    simpl in Hrun. apply coalesce_tail in Hrun; [|assumption].
    destruct Hrun as [-> ->]. eexists; split; [|split]; [|reflexivity|reflexivity]; reflexivity.
  - rewrite resolve_elastic_eq in Hrun.
    match type of Hrun with
    | match ?x with _ => _ end = _ => destruct x; [now injection Hrun as <- <-|]
    end.
    destruct (list_index _ 1); [now injection Hrun as <- <-|].
    destruct (Urllib.port parsed_url) as [e|port]; [now injection Hrun as <- <-|].
    match type of Hrun with
    | elastic ?h ?i ?t ?q ?f ?p ?par ?o _ = _ =>
        destruct (elastic_reads h i t q f p par o []) as (defaults & Heq & _)
    end.
    rewrite Heq in Hrun. simpl in Hrun. injection Hrun as <- <-.
    rewrite !get_or_none_dremove by discriminate.
    eexists; split; [|split]; [|reflexivity|reflexivity]; reflexivity.
  - rewrite resolve_mysql_eq in Hrun.
    destruct (list_index _ 1); [now injection Hrun as <- <-|].
    destruct (list_index _ 2); [now injection Hrun as <- <-|].
    destruct (Urllib.port parsed_url) as [e|port]; [now injection Hrun as <- <-|].
    match type of Hrun with
    | mysql ?h ?d ?t ?p ?par ?o _ = _ =>
        destruct (mysql_reads h d t p par o []) as (defaults & Heq & _)
    end.
    rewrite Heq in Hrun. simpl in Hrun. injection Hrun as <- <-.
    eexists; split; [|split]; [|reflexivity|reflexivity]; reflexivity.
  - rewrite resolve_parquet_eq in Hrun.
    destruct (kwargs _ _); [now injection Hrun as <- <-|].
    simpl in Hrun. apply coalesce_tail in Hrun; [|assumption].
    destruct Hrun as [-> ->]. eexists; split; [|split]; [|reflexivity|reflexivity]; reflexivity.
  - rewrite resolve_table_eq in Hrun.
    simpl in Hrun. apply coalesce_tail in Hrun; [|assumption].
    destruct Hrun as [-> ->]. eexists; split; [|split]; [|reflexivity|reflexivity]; reflexivity.
Qed.

(** X2.  When [by_url] raises, whatever the exception, nothing has been
    asked of the engine: every check the reader makes itself comes before
    the load.  (The engine's own failures are not part of the model.) *)
Theorem by_url_failure_before_engine :
  forall url log e,
    run (by_url parse_schema url) = (log, Raise e) -> log = [].
Proof.
  intros url log e Hrun. unfold run in Hrun.
  destruct (Urllib.urlparse url) as [e'|pu] eqn:Hparse.
  - rewrite (by_url_parse_error _ _ _ Hparse) in Hrun. now injection Hrun as <-.
  - rewrite (by_url_run parse_schema _ _ _ Hparse) in Hrun.
    destruct (coerce_parallelism (query_dict pu)) as [e'|qs] eqn:Hcoerce;
      [now injection Hrun as <-|].
    destruct (resolver parse_schema (Urllib.scheme pu)) as [resolve|] eqn:Hres;
      [|now injection Hrun as <-].
    apply (resolver_outcome _ _ _ _ _ _ Hres) in Hrun; [exact Hrun|].
    rewrite (coerce_parallelism_requested _ _ Hcoerce).
    apply requested_parallelism_int.
Qed.

(** X3.  When [by_url] returns, the engine was asked to load exactly once,
    first, and then to coalesce exactly when the query gives [parallelism] an
    integer other than 0; the frame returned records the same coalesce. *)
Theorem by_url_success_log :
  forall url parsed_url log df,
    Urllib.urlparse url = Ok parsed_url ->
    run (by_url parse_schema url) = (log, Ok df) ->
    exists c,
      is_load c = true
      /\ log = c :: coalesce_calls (requested_parallelism parsed_url)
      /\ applied df = coalesce_calls (requested_parallelism parsed_url)
      /\ existsb is_load (coalesce_calls (requested_parallelism parsed_url)) = false.
Proof.
  intros url pu log df Hparse Hrun. unfold run in Hrun.
  rewrite (by_url_run parse_schema _ _ _ Hparse) in Hrun.
  destruct (coerce_parallelism (query_dict pu)) as [e'|qs] eqn:Hcoerce; [discriminate|].
  destruct (resolver parse_schema (Urllib.scheme pu)) as [resolve|] eqn:Hres;
    [|discriminate].
  pose proof (coerce_parallelism_requested _ _ Hcoerce) as Hreq.
  apply (resolver_outcome _ _ _ _ _ _ Hres) in Hrun.
  - rewrite Hreq in Hrun. destruct Hrun as (c & Hc & Hlog & Happlied).
    exists c. repeat (split; [assumption|]).
    unfold coalesce_calls. now destruct (truthy _).
  - rewrite Hreq. apply requested_parallelism_int.
Qed.

Lemma dget_app_none (k : string) (d e : dict) :
  dget k (d ++ e)%list = None -> dget k d = None.
Proof.
  induction d as [|[k0 v0] r IH]; simpl; [reflexivity|].
  destruct (String.eqb k0 k); [discriminate|auto].
Qed.

(** Keyword expansion succeeds only if no expanded key repeats an explicit
    one. *)
Lemma kwargs_ok_fresh (explicit extra options : dict) (k : string) :
  kwargs explicit extra = Ok options ->
  dget k extra <> None -> dget k explicit = None.
Proof.
  revert explicit. unfold kwargs.
  induction extra as [|[k0 v0] r IH]; intros explicit; simpl; [congruence|].
  fold kwargs in *.
  destruct (dmem k0 explicit) eqn:Hmem; [discriminate|].
  intros Hok Hk. destruct (String.eqb_spec k0 k).
  - subst. now apply dmem_false_absent.
  - eapply dget_app_none, IH; eassumption.
Qed.

Lemma absent_from (k : string) (d : dict) (keys : list string) :
  (forall k', dget k' d <> None -> In k' keys) -> ~ In k keys -> dget k d = None.
Proof.
  intros H Hk. destruct (dget k d) eqn:E; [|reflexivity].
  exfalso. apply Hk, H. congruence.
Qed.

(** The options of the load call of a successful [by_url], against the
    query of the URL: reserved keys are gone, the others are there with the
    caller's values. *)
Lemma by_url_options_of_query (url : string) (parsed_url : Urllib.ParseResult)
    (log : list Call) (df : DataFrame) :
  Urllib.urlparse url = Ok parsed_url ->
  run (by_url parse_schema url) = (log, Ok df) ->
  Urllib.scheme parsed_url <> "table" ->
  exists c options rest,
    log = c :: rest
    /\ call_options c = Some options
    /\ (forall k, In k (reserved_keys (Urllib.scheme parsed_url)) -> k <> "schema" ->
                  dget k options = None)
    /\ (forall k v, dget k (query_dict parsed_url) = Some v ->
                    ~ In k (reserved_keys (Urllib.scheme parsed_url)) ->
                    dget k options = Some v).
Proof.
  intros Hparse Hrun Htable. unfold run in Hrun.
  rewrite (by_url_run parse_schema _ _ _ Hparse) in Hrun.
  destruct (coerce_parallelism (query_dict parsed_url)) as [e'|qs] eqn:Hcoerce;
    [discriminate|].
  pose proof (coerce_parallelism_NoDup _ _ Hcoerce (query_dict_NoDup parsed_url)) as Hnd.
  assert (Hsame : forall k, k <> "parallelism" -> dget k qs = dget k (query_dict parsed_url)).
  { intros k Hk. now apply (coerce_parallelism_other _ _ k Hcoerce). }
  unfold resolver in Hrun.
  destruct (String.eqb_spec (Urllib.scheme parsed_url) "cassandra") as [Hs|_];
    [|destruct (String.eqb_spec (Urllib.scheme parsed_url) "csv") as [Hs|_];
      [|destruct (String.eqb_spec (Urllib.scheme parsed_url) "elastic") as [Hs|_];
        [|destruct (String.eqb_spec (Urllib.scheme parsed_url) "mysql") as [Hs|_];
          [|destruct (String.eqb_spec (Urllib.scheme parsed_url) "parquet") as [Hs|_];
            [|destruct (String.eqb_spec (Urllib.scheme parsed_url) "table") as [Hs|_];
              [congruence|discriminate]]]]]];
    rewrite Hs; unfold reserved_keys; cbn [String.eqb Ascii.eqb Bool.eqb In].
  - rewrite resolve_cassandra_eq in Hrun.
    destruct (list_index _ 1); [discriminate|].
    destruct (list_index _ 2); [discriminate|].
    destruct (Urllib.port parsed_url) as [e|port]; [discriminate|].
    match type of Hrun with
    | cassandra ?h ?k ?t ?c ?p ?par ?o _ = _ =>
        destruct (cassandra_reads h k t c p par o [])
          as (defaults & Heq & _ & _ & _ & _ & _ & _ & Hkeys)
    end.
    rewrite Heq in Hrun. simpl in Hrun. injection Hrun as <- _.
    do 3 eexists. split; [reflexivity|]. split; [reflexivity|]. split.
    + intros k Hk _. rewrite dget_dupdate_none.
      * apply (absent_from _ _ _ Hkeys). simpl.
        destruct Hk as [<-|[<-|[]]]; intuition discriminate.
      * destruct Hk as [<-|[<-|[]]].
        -- apply dget_dremove_none, dget_dremove_same, Hnd.
        -- apply dget_dremove_same, NoDup_keys_dremove, Hnd.
    + intros k v Hk Hres. apply dget_dupdate_some.
      * now apply NoDup_keys_dremove, NoDup_keys_dremove.
      * rewrite !dget_dremove_diff by (intros ?; subst; intuition congruence).
        rewrite Hsame by (intros ?; subst; intuition congruence). exact Hk.
  - rewrite resolve_csv_eq in Hrun.
    destruct (dmem "schema" (dremove "parallelism" qs)) eqn:Hschema.
    + destruct (parse_schema _); simpl in Hrun; [discriminate|].
      destruct (kwargs _ _) as [e|options] eqn:Hkw; [discriminate|].
      assert (Hlog : exists rest, log = read_csv options :: rest).
      { destruct (truthy _); [destruct (int _); [discriminate|]|];
          injection Hrun as <- _; eexists; reflexivity. }
      destruct Hlog as [rest ->].
      pose proof (kwargs_ok _ _ _ Hkw) as ->.
      do 3 eexists. split; [reflexivity|]. split; [reflexivity|]. split.
      * intros k [<-|[<-|[]]] Hk; [|congruence]. simpl.
        rewrite dget_dset_other by discriminate.
        apply dget_dremove_none, dget_dremove_same, Hnd.
      * intros k v Hk Hres.
        assert (Hget : dget k (dset "schema" (VType d) (dremove "schema" (dremove "parallelism" qs)))
                       = Some v).
        { rewrite dget_dset_other by (intros ?; subst; intuition congruence). rewrite !dget_dremove_diff by (intros ?; subst; intuition congruence).
          rewrite Hsame by (intros ?; subst; intuition congruence). exact Hk. }
        rewrite dget_app_left; [exact Hget|].
        eapply kwargs_ok_fresh; [exact Hkw|congruence].
    + simpl in Hrun.
      destruct (kwargs _ _) as [e|options] eqn:Hkw; [discriminate|].
      assert (Hlog : exists rest, log = read_csv options :: rest).
      { destruct (truthy _); [destruct (int _); [discriminate|]|];
          injection Hrun as <- _; eexists; reflexivity. }
      destruct Hlog as [rest ->].
      pose proof (kwargs_ok _ _ _ Hkw) as ->.
      do 3 eexists. split; [reflexivity|]. split; [reflexivity|]. split.
      * intros k [<-|[<-|[]]] Hk; [|congruence]. simpl.
        apply dget_dremove_same, Hnd.
      * intros k v Hk Hres.
        assert (Hget : dget k (dremove "parallelism" qs) = Some v).
        { rewrite !dget_dremove_diff by (intros ?; subst; intuition congruence).
        rewrite Hsame by (intros ?; subst; intuition congruence). exact Hk. }
        rewrite dget_app_left; [exact Hget|].
        eapply kwargs_ok_fresh; [exact Hkw|congruence].
  - rewrite resolve_elastic_eq in Hrun.
    match type of Hrun with
    | match ?x with _ => _ end = _ => destruct x; [discriminate|]
    end.
    destruct (list_index _ 1); [discriminate|].
    destruct (Urllib.port parsed_url) as [e|port]; [discriminate|].
    match type of Hrun with
    | elastic ?h ?i ?t ?q ?f ?p ?par ?o _ = _ =>
        destruct (elastic_reads h i t q f p par o [])
          as (defaults & Heq & _ & _ & _ & _ & _ & _ & _ & Hkeys)
    end.
    rewrite Heq in Hrun. simpl in Hrun. injection Hrun as <- _.
    do 3 eexists. split; [reflexivity|]. split; [reflexivity|]. split.
    + intros k Hk _. rewrite dget_dupdate_none.
      * apply (absent_from _ _ _ Hkeys). simpl.
        destruct Hk as [<-|[<-|[<-|[]]]]; intuition discriminate.
      * destruct Hk as [<-|[<-|[<-|[]]]].
        -- apply dget_dremove_none, dget_dremove_none, dget_dremove_same, Hnd.
        -- apply dget_dremove_none, dget_dremove_same, NoDup_keys_dremove, Hnd.
        -- apply dget_dremove_same. now apply NoDup_keys_dremove, NoDup_keys_dremove.
    + intros k v Hk Hres. apply dget_dupdate_some.
      * now apply NoDup_keys_dremove, NoDup_keys_dremove, NoDup_keys_dremove.
      * rewrite !dget_dremove_diff by (intros ?; subst; intuition congruence).
        rewrite Hsame by (intros ?; subst; intuition congruence). exact Hk.
  - rewrite resolve_mysql_eq in Hrun.
    destruct (list_index _ 1); [discriminate|].
    destruct (list_index _ 2); [discriminate|].
    destruct (Urllib.port parsed_url) as [e|port]; [discriminate|].
    match type of Hrun with
    | mysql ?h ?d ?t ?p ?par ?o _ = _ =>
        destruct (mysql_reads h d t p par o []) as (defaults & Heq & _ & _ & _ & _ & Hkeys)
    end.
    rewrite Heq in Hrun. simpl in Hrun. injection Hrun as <- _.
    do 3 eexists. split; [reflexivity|]. split; [reflexivity|]. split.
    + intros k Hk _. rewrite dget_dupdate_none.
      * apply (absent_from _ _ _ Hkeys). simpl.
        destruct Hk as [<-|[]]; intuition discriminate.
      * destruct Hk as [<-|[]]. apply dget_dremove_same, Hnd.
    + intros k v Hk Hres. apply dget_dupdate_some.
      * now apply NoDup_keys_dremove.
      * rewrite !dget_dremove_diff by (intros ?; subst; intuition congruence).
        rewrite Hsame by (intros ?; subst; intuition congruence). exact Hk.
  - rewrite resolve_parquet_eq in Hrun.
    destruct (kwargs _ _) as [e|options] eqn:Hkw; [discriminate|].
    assert (Hlog : exists rest, log = read_load options :: rest).
    { destruct (truthy _); [destruct (int _); [discriminate|]|];
        injection Hrun as <- _; eexists; reflexivity. }
    destruct Hlog as [rest ->].
    pose proof (kwargs_ok _ _ _ Hkw) as ->.
    do 3 eexists. split; [reflexivity|]. split; [reflexivity|]. split.
    + intros k [<-|[]] Hk. simpl. apply dget_dremove_same, Hnd.
    + intros k v Hk Hres.
      assert (Hget : dget k (dremove "parallelism" qs) = Some v).
      { rewrite !dget_dremove_diff by (intros ?; subst; intuition congruence).
        rewrite Hsame by (intros ?; subst; intuition congruence). exact Hk. }
      rewrite dget_app_left; [exact Hget|].
      eapply kwargs_ok_fresh; [exact Hkw|congruence].
Qed.

(** X4.  The query parameters a resolver takes for itself are not handed
    on: in the options of the load call of a successful [by_url] there is no
    [parallelism], for [cassandra] no [consistency], for [elastic] no [q] and
    no [fields]. *)
Theorem by_url_reserved_keys_consumed :
  forall url parsed_url log df,
    Urllib.urlparse url = Ok parsed_url ->
    run (by_url parse_schema url) = (log, Ok df) ->
    Urllib.scheme parsed_url <> "table" ->
    exists c options rest,
      log = c :: rest
      /\ call_options c = Some options
      /\ forall k, In k (reserved_keys (Urllib.scheme parsed_url)) -> k <> "schema" ->
                   dget k options = None.
Proof.
  intros url pu log df Hparse Hrun Htable.
  destruct (by_url_options_of_query _ _ _ _ Hparse Hrun Htable)
    as (c & options & rest & Hlog & Hc & Hreserved & _).
  exists c, options, rest. auto.
Qed.

(** X5.  Every other query parameter is handed to the engine as it is, with
    the caller's value, also when its name is that of an option the resolver
    sets itself. *)
Theorem by_url_passthrough :
  forall url parsed_url log df,
    Urllib.urlparse url = Ok parsed_url ->
    run (by_url parse_schema url) = (log, Ok df) ->
    Urllib.scheme parsed_url <> "table" ->
    exists c options rest,
      log = c :: rest
      /\ call_options c = Some options
      /\ forall k v, dget k (query_dict parsed_url) = Some v ->
                     ~ In k (reserved_keys (Urllib.scheme parsed_url)) ->
                     dget k options = Some v.
Proof.
  intros url pu log df Hparse Hrun Htable.
  destruct (by_url_options_of_query _ _ _ _ Hparse Hrun Htable)
    as (c & options & rest & Hlog & Hc & _ & Hpass).
  exists c, options, rest. auto.
Qed.

Lemma list_index_ok (l : list string) (i : nat) (x : string) :
  list_index l i = Ok x -> (i < length l)%nat /\ x = nth i l "".
Proof.
  intros H. destruct (Nat.lt_ge_cases i (length l)) as [Hlt|Hge].
  - split; [assumption|]. rewrite (list_index_nth _ _ Hlt) in H. now injection H.
  - rewrite (list_index_short _ _ Hge) in H. discriminate.
Qed.

Lemma get_or_none_truthy (parsed_url : Urllib.ParseResult) (parsed_qs : dict) (k : string) :
  coerce_parallelism (query_dict parsed_url) = Ok parsed_qs ->
  k <> "parallelism" ->
  (if truthy (get_or_none k parsed_qs) then Some (get_or_none k parsed_qs) else None)
  = dget k (query_dict parsed_url).
Proof.
  intros Hcoerce Hk. unfold get_or_none.
  rewrite (coerce_parallelism_other _ _ k Hcoerce Hk).
  destruct (dget k (query_dict parsed_url)) as [v|] eqn:E; [|reflexivity].
  destruct (query_dict_values _ _ _ E) as (s & -> & Hs). simpl.
  destruct (String.eqb_spec s ""); [congruence|reflexivity].
Qed.

(** A [cassandra] URL that resolved, in full. *)
Lemma by_url_cassandra_ok (url : string) (parsed_url : Urllib.ParseResult)
    (log : list Call) (df : DataFrame) :
  Urllib.urlparse url = Ok parsed_url ->
  Urllib.scheme parsed_url = "cassandra" ->
  run (by_url parse_schema url) = (log, Ok df) ->
  let segments := Py.split "/" (Urllib.path parsed_url) in
  exists parsed_qs port defaults,
    coerce_parallelism (query_dict parsed_url) = Ok parsed_qs
    /\ (2 < length segments)%nat
    /\ Urllib.port parsed_url = Ok port
    /\ log = read_load (dupdate defaults (dremove "parallelism"
                                           (dremove "consistency" parsed_qs)))
             :: coalesce_calls (requested_parallelism parsed_url)
    /\ dget "format" defaults = Some (VStr "org.apache.spark.sql.cassandra")
    /\ dget "spark.cassandra.connection.host" defaults = Some (Urllib.hostname parsed_url)
    /\ dget "keyspace" defaults = Some (VStr (nth 1 segments ""))
    /\ dget "table" defaults = Some (VStr (nth 2 segments ""))
    /\ dget "spark.cassandra.input.consistency.level" defaults
       = dget "consistency" (query_dict parsed_url)
    /\ dget "spark.cassandra.connection.port" defaults
       = (if truthy (of_port port) then Some (VStr (str (of_port port))) else None).
Proof.
  intros Hparse Hs Hrun segments. unfold run in Hrun.
  rewrite (by_url_run parse_schema _ _ _ Hparse) in Hrun.
  destruct (coerce_parallelism (query_dict parsed_url)) as [e'|qs] eqn:Hcoerce;
    [discriminate|].
  rewrite Hs in Hrun. simpl in Hrun. rewrite resolve_cassandra_eq in Hrun.
  destruct (list_index _ 1) as [|ks] eqn:H1; [discriminate|].
  destruct (list_index _ 2) as [|tbl] eqn:H2; [discriminate|].
  destruct (Urllib.port parsed_url) as [e|port]; [discriminate|].
  apply list_index_ok in H1, H2. destruct H1 as [_ ->]. destruct H2 as [Hlen ->].
  match type of Hrun with
  | cassandra ?h ?k ?t ?c ?p ?par ?o _ = _ =>
      destruct (cassandra_reads h k t c p par o [])
        as (defaults & Heq & Hf & Hh & Hk & Ht & Hc & Hp & _)
  end.
  rewrite Heq in Hrun. simpl in Hrun. injection Hrun as <- _.
  rewrite get_or_none_dremove by discriminate.
  rewrite (coerce_parallelism_requested _ _ Hcoerce).
  rewrite (get_or_none_truthy _ _ "consistency" Hcoerce) in Hc by discriminate.
  exists qs, port, defaults. repeat (split; [first [reflexivity|assumption]|]).
  assumption.
Qed.

Lemma rest_absent (parsed_url : Urllib.ParseResult) (parsed_qs : dict) (k : string) :
  coerce_parallelism (query_dict parsed_url) = Ok parsed_qs ->
  k <> "parallelism" ->
  dget k (query_dict parsed_url) = None ->
  dget k parsed_qs = None.
Proof.
  intros Hcoerce Hk H. now rewrite (coerce_parallelism_other _ _ k Hcoerce Hk).
Qed.


(** X7.  For a [cassandra] URL that resolved, unless the query sets the
    option under its own name: [keyspace] and [table] are the first and
    second path segment, the consistency level is the [consistency] of the
    query (absent if the query has none), and the port option is the port of
    the authority as decimal text (absent without a port, and for port 0). *)
Theorem by_url_cassandra_options :
  forall url parsed_url log df,
    Urllib.urlparse url = Ok parsed_url ->
    Urllib.scheme parsed_url = "cassandra" ->
    run (by_url parse_schema url) = (log, Ok df) ->
    let segments := Py.split "/" (Urllib.path parsed_url) in
    let query := query_dict parsed_url in
    exists options rest,
      log = read_load options :: rest
      /\ (dget "keyspace" query = None ->
          dget "keyspace" options = Some (VStr (nth 1 segments "")))
      /\ (dget "table" query = None ->
          dget "table" options = Some (VStr (nth 2 segments "")))
      /\ (dget "spark.cassandra.input.consistency.level" query = None ->
          dget "spark.cassandra.input.consistency.level" options
          = dget "consistency" query)
      /\ (dget "spark.cassandra.connection.port" query = None ->
          dget "spark.cassandra.connection.port" options
          = match Urllib.port parsed_url with
            | inr (Some p) => if p =? 0 then None else Some (VStr (Py.str_of_int p))
            | _ => None
            end).
Proof.
  intros url pu log df Hparse Hs Hrun segments query.
  destruct (by_url_cassandra_ok _ _ _ _ Hparse Hs Hrun)
    as (qs & port & defaults & Hcoerce & Hlen & Hport & -> & _ & _ & Hk & Ht & Hc & Hp).
  assert (Habsent : forall k, k <> "parallelism" -> dget k query = None ->
            dget k (dupdate defaults (dremove "parallelism" (dremove "consistency" qs)))
            = dget k defaults).
  { intros k Hne Hq. apply dget_dupdate_none.
    apply dget_dremove_none, dget_dremove_none. eapply rest_absent; eassumption. }
  do 2 eexists. split; [reflexivity|].
  split; [|split; [|split]]; intros Hq; rewrite Habsent by (assumption || discriminate).
  - exact Hk.
  - exact Ht.
  - exact Hc.
  - rewrite Hp, Hport. destruct port as [p|]; [|reflexivity].
    simpl. now destruct (p =? 0).
Qed.

Lemma dmem_dget (k : string) (d : dict) :
  dmem k d = match dget k d with Some _ => true | None => false end.
Proof. reflexivity. Qed.

Lemma elastic_query (parsed_url : Urllib.ParseResult) (parsed_qs : dict) :
  coerce_parallelism (query_dict parsed_url) = Ok parsed_qs ->
  (if dmem "q" parsed_qs then "?q=" ++ str (get_or_none "q" parsed_qs) else "")
  = match dget "q" (query_dict parsed_url) with
    | Some v => "?q=" ++ str v
    | None => ""
    end.
Proof.
  intros Hcoerce. rewrite dmem_dget. unfold get_or_none.
  rewrite (coerce_parallelism_other _ _ "q" Hcoerce) by discriminate.
  now destruct (dget "q" (query_dict parsed_url)).
Qed.

Lemma elastic_fields (parsed_url : Urllib.ParseResult) (parsed_qs : dict)
    (fields : option (list string)) :
  coerce_parallelism (query_dict parsed_url) = Ok parsed_qs ->
  (if dmem "fields" (dremove "q" parsed_qs)
   then rbind (split_value (get_or_none "fields" (dremove "q" parsed_qs)))
          (fun l => Ok (Some l))
   else Ok None) = Ok fields ->
  match fields with
  | Some (f :: fs) => Some (VStr (Py.join "," (f :: fs)))
  | _ => None
  end = dget "fields" (query_dict parsed_url).
Proof.
  intros Hcoerce. rewrite dmem_dget. unfold get_or_none.
  rewrite dget_dremove_diff by discriminate.
  rewrite (coerce_parallelism_other _ _ "fields" Hcoerce) by discriminate.
  destruct (dget "fields" (query_dict parsed_url)) as [v|] eqn:E.
  - destruct (query_dict_values _ _ _ E) as (s & -> & Hs).
    unfold split_value. simpl. intros [= <-].
    pose proof (split_nonempty "," s) as Hne.
    pose proof (join_split "," s) as Hjoin.
    destruct (Py.split "," s) as [|f fs]; [congruence|].
    do 2 f_equal. exact Hjoin.
  - now intros [= <-].
Qed.

Lemma elastic_path (segments : list string) (es_index : string) :
  (if truthy (if (2 <? length segments)%nat then VStr (nth 2 segments "") else VNone)
   then es_index ++ "/" ++
        str (if (2 <? length segments)%nat then VStr (nth 2 segments "") else VNone)
   else es_index)
  = (if String.eqb (nth 2 segments "") "" then es_index
     else es_index ++ "/" ++ nth 2 segments "").
Proof.
  destruct (2 <? length segments)%nat eqn:Hlen.
  - simpl. unfold str. now destruct (String.eqb (nth 2 segments "") "").
  - apply Nat.ltb_ge in Hlen. now rewrite nth_overflow.
Qed.

(** An [elastic] URL that resolved, in full. *)
Lemma by_url_elastic_ok (url : string) (parsed_url : Urllib.ParseResult)
    (log : list Call) (df : DataFrame) :
  Urllib.urlparse url = Ok parsed_url ->
  Urllib.scheme parsed_url = "elastic" ->
  run (by_url parse_schema url) = (log, Ok df) ->
  let segments := Py.split "/" (Urllib.path parsed_url) in
  let query := query_dict parsed_url in
  exists parsed_qs port defaults,
    coerce_parallelism query = Ok parsed_qs
    /\ (1 < length segments)%nat
    /\ Urllib.port parsed_url = Ok port
    /\ log = read_load (dupdate defaults
                          (dremove "parallelism"
                             (dremove "fields" (dremove "q" parsed_qs))))
             :: coalesce_calls (requested_parallelism parsed_url)
    /\ dget "path" defaults
       = Some (VStr (if String.eqb (nth 2 segments "") "" then nth 1 segments ""
                     else nth 1 segments "" ++ "/" ++ nth 2 segments ""))
    /\ dget "es.nodes" defaults = Some (VStr (Urllib.netloc parsed_url))
    /\ dget "es.query" defaults
       = Some (VStr (match dget "q" query with
                     | Some v => "?q=" ++ str v
                     | None => ""
                     end))
    /\ dget "es.read.metadata" defaults = Some (VStr "true")
    /\ dget "es.read.field.include" defaults = dget "fields" query
    /\ dget "es.port" defaults
       = (if truthy (of_port port) then Some (VStr (str (of_port port))) else None).
Proof.
  intros Hparse Hs Hrun segments query. unfold run in Hrun.
  rewrite (by_url_run parse_schema _ _ _ Hparse) in Hrun.
  destruct (coerce_parallelism (query_dict parsed_url)) as [e'|qs] eqn:Hcoerce;
    [discriminate|].
  rewrite Hs in Hrun. simpl in Hrun. rewrite resolve_elastic_eq in Hrun.
  match type of Hrun with
  | match ?x with _ => _ end = _ => destruct x as [|fields] eqn:Hfields; [discriminate|]
  end.
  destruct (list_index _ 1) as [|idx] eqn:H1; [discriminate|].
  destruct (Urllib.port parsed_url) as [e|port]; [discriminate|].
  apply list_index_ok in H1. destruct H1 as [Hlen ->].
  match type of Hrun with
  | elastic ?h ?i ?t ?q ?f ?p ?par ?o _ = _ =>
      destruct (elastic_reads h i t q f p par o [])
        as (defaults & Heq & Hpath & _ & Hn & Hq & Hm & Hf & Hp & _)
  end.
  rewrite Heq in Hrun. simpl in Hrun. injection Hrun as <- _.
  rewrite !get_or_none_dremove by discriminate.
  rewrite (coerce_parallelism_requested _ _ Hcoerce).
  rewrite elastic_path in Hpath.
  rewrite (elastic_query _ _ Hcoerce) in Hq.
  rewrite (elastic_fields _ _ _ Hcoerce Hfields) in Hf.
  exists qs, port, defaults. repeat (split; [first [reflexivity|assumption]|]).
  assumption.
Qed.

(** X8.  For an [elastic] URL that resolved, unless the query sets the
    option under its own name: [path] is the index, followed by [/] and the
    type when the path has a non-empty second segment; [es.query] is [?q=]
    followed by the [q] of the query, or empty; [es.read.field.include] is
    the [fields] of the query, unchanged by the split at commas and the join
    that follows; [es.read.metadata] is [true]. *)
Theorem by_url_elastic_options :
  forall url parsed_url log df,
    Urllib.urlparse url = Ok parsed_url ->
    Urllib.scheme parsed_url = "elastic" ->
    run (by_url parse_schema url) = (log, Ok df) ->
    let segments := Py.split "/" (Urllib.path parsed_url) in
    let query := query_dict parsed_url in
    exists options rest,
      log = read_load options :: rest
      /\ (dget "path" query = None ->
          dget "path" options
          = Some (VStr (if String.eqb (nth 2 segments "") "" then nth 1 segments ""
                        else nth 1 segments "" ++ "/" ++ nth 2 segments "")))
      /\ (dget "es.query" query = None ->
          dget "es.query" options
          = Some (VStr (match dget "q" query with
                        | Some v => "?q=" ++ str v
                        | None => ""
                        end)))
      /\ (dget "es.read.field.include" query = None ->
          dget "es.read.field.include" options = dget "fields" query)
      /\ (dget "es.read.metadata" query = None ->
          dget "es.read.metadata" options = Some (VStr "true")).
Proof.
  intros url pu log df Hparse Hs Hrun segments query.
  destruct (by_url_elastic_ok _ _ _ _ Hparse Hs Hrun)
    as (qs & port & defaults & Hcoerce & Hlen & Hport & -> & Hpath & _ & Hq & Hm & Hf & _).
  assert (Habsent : forall k, k <> "parallelism" -> dget k query = None ->
            dget k (dupdate defaults
                      (dremove "parallelism" (dremove "fields" (dremove "q" qs))))
            = dget k defaults).
  { intros k Hne Hk. apply dget_dupdate_none.
    apply dget_dremove_none, dget_dremove_none, dget_dremove_none.
    eapply rest_absent; eassumption. }
  do 2 eexists. split; [reflexivity|].
  split; [|split; [|split]]; intros Hk; rewrite Habsent by (assumption || discriminate);
    assumption.
Qed.



(** A [mysql] URL that resolved, in full. *)
Lemma by_url_mysql_ok (url : string) (parsed_url : Urllib.ParseResult)
    (log : list Call) (df : DataFrame) :
  Urllib.urlparse url = Ok parsed_url ->
  Urllib.scheme parsed_url = "mysql" ->
  run (by_url parse_schema url) = (log, Ok df) ->
  let segments := Py.split "/" (Urllib.path parsed_url) in
  exists parsed_qs port defaults,
    coerce_parallelism (query_dict parsed_url) = Ok parsed_qs
    /\ Urllib.port parsed_url = Ok port
    /\ log = read_load (dupdate defaults (dremove "parallelism" parsed_qs))
             :: coalesce_calls (requested_parallelism parsed_url)
    /\ dget "driver" defaults = Some (VStr "com.mysql.jdbc.Driver")
    /\ dget "url" defaults
       = Some (VStr ("jdbc:mysql://" ++ str (Urllib.hostname parsed_url) ++
                     (if truthy (of_port port) then ":" ++ str (of_port port) else "") ++
                     "/" ++ nth 1 segments ""))
    /\ dget "dbtable" defaults = Some (VStr (nth 2 segments "")).
Proof.
  intros Hparse Hs Hrun segments. unfold run in Hrun.
  rewrite (by_url_run parse_schema _ _ _ Hparse) in Hrun.
  destruct (coerce_parallelism (query_dict parsed_url)) as [e'|qs] eqn:Hcoerce;
    [discriminate|].
  rewrite Hs in Hrun. simpl in Hrun. rewrite resolve_mysql_eq in Hrun.
  destruct (list_index _ 1) as [|db] eqn:H1; [discriminate|].
  destruct (list_index _ 2) as [|tbl] eqn:H2; [discriminate|].
  destruct (Urllib.port parsed_url) as [e|port]; [discriminate|].
  apply list_index_ok in H1, H2. destruct H1 as [_ ->]. destruct H2 as [Hlen ->].
  match type of Hrun with
  | mysql ?h ?d ?t ?p ?par ?o _ = _ =>
      destruct (mysql_reads h d t p par o []) as (defaults & Heq & _ & Hd & Hu & Ht & _)
  end.
  rewrite Heq in Hrun. simpl in Hrun. injection Hrun as <- _.
  rewrite (coerce_parallelism_requested _ _ Hcoerce).
  exists qs, port, defaults. repeat (split; [first [reflexivity|assumption]|]).
  assumption.
Qed.

(** X10.  For a [mysql] URL that resolved, unless the query sets the option
    under its own name: the JDBC URL is [jdbc:mysql://], the host name, the
    port after a colon when the authority has one other than 0, a slash and
    the first path segment; a URL without a host gives the text [None] in the
    place of the host.  [dbtable] is the second path segment and [driver] the
    MySQL driver class. *)
Theorem by_url_mysql_options :
  forall url parsed_url log df,
    Urllib.urlparse url = Ok parsed_url ->
    Urllib.scheme parsed_url = "mysql" ->
    run (by_url parse_schema url) = (log, Ok df) ->
    let segments := Py.split "/" (Urllib.path parsed_url) in
    let query := query_dict parsed_url in
    exists options rest,
      log = read_load options :: rest
      /\ (dget "url" query = None ->
          dget "url" options
          = Some (VStr ("jdbc:mysql://" ++
                        match Urllib.hostname parsed_url with
                        | VStr host => host
                        | _ => "None"
                        end ++
                        match Urllib.port parsed_url with
                        | inr (Some p) => if p =? 0 then "" else ":" ++ Py.str_of_int p
                        | _ => ""
                        end ++
                        "/" ++ nth 1 segments "")))
      /\ (dget "dbtable" query = None ->
          dget "dbtable" options = Some (VStr (nth 2 segments "")))
      /\ (dget "driver" query = None ->
          dget "driver" options = Some (VStr "com.mysql.jdbc.Driver")).
Proof.
  intros url pu log df Hparse Hs Hrun segments query.
  destruct (by_url_mysql_ok _ _ _ _ Hparse Hs Hrun)
    as (qs & port & defaults & Hcoerce & Hport & -> & Hd & Hu & Ht).
  assert (Habsent : forall k, k <> "parallelism" -> dget k query = None ->
            dget k (dupdate defaults (dremove "parallelism" qs)) = dget k defaults).
  { intros k Hne Hk. apply dget_dupdate_none, dget_dremove_none.
    eapply rest_absent; eassumption. }
  do 2 eexists. split; [reflexivity|].
  split; [|split]; intros Hk; rewrite Habsent by (assumption || discriminate);
    [|assumption|assumption].
  assert (Hhost : str (Urllib.hostname pu)
                  = match Urllib.hostname pu with VStr host => host | _ => "None" end).
  { unfold Urllib.hostname. destruct (fst (Urllib.hostinfo pu)); [reflexivity|].
    now destruct (Py.partition "%" _) as [[name percent] zone]. }
  assert (Hp : (if truthy (of_port port) then ":" ++ str (of_port port) else "")
               = match port with
                 | Some p => if p =? 0 then "" else ":" ++ Py.str_of_int p
                 | None => ""
                 end).
  { destruct port as [p|]; [|reflexivity]. simpl. now destruct (p =? 0). }
  rewrite Hu, Hport, Hhost, Hp. reflexivity.
Qed.







End ByUrlProperties.

(* ===================================================================== *)
(** ** URLs of files *)
(* ===================================================================== *)

Section FileUrls.

Lemma contains_plain (location : string) (c : ascii) :
  plain_location location = true ->
  In c ["?"; "#"; Py.chr 9; Py.chr 10; Py.chr 13]%char ->
  Py.contains c location = false.
Proof.
  intros Hplain Hin. induction location as [|d r IH]; [reflexivity|].
  simpl in Hplain. apply andb_prop in Hplain. destruct Hplain as [Hd Hr].
  cbn [Py.contains]. rewrite (IH Hr).
  destruct (Ascii.eqb_spec d c) as [->|]; [|reflexivity].
  exfalso. simpl in Hin.
  destruct Hin as [<-|[<-|[<-|[<-|[<-|[]]]]]]; discriminate Hd.
Qed.

Lemma remove_char_absent (c : ascii) (s : string) :
  Py.contains c s = false -> Py.remove_char c s = s.
Proof.
  induction s as [|d r IH]; [reflexivity|]. simpl.
  destruct (Ascii.eqb d c); [discriminate|].
  intros H. now rewrite IH.
Qed.

Lemma partition_absent (c : ascii) (s : string) :
  Py.contains c s = false -> Py.partition c s = (s, false, "").
Proof.
  induction s as [|d r IH]; [reflexivity|]. simpl.
  destruct (Ascii.eqb d c); [discriminate|].
  intros H. now rewrite IH.
Qed.

(** The part of [urlparse] that follows the scheme, on a plain location
    that does not start an authority. *)
Lemma urlparse_location (location : string) :
  plain_location location = true ->
  String.prefix "//" location = false ->
  Urllib.urlparse ("csv:" ++ location)
  = Ok (Urllib.mkParseResult "csv" "" location "" "")
  /\ Urllib.urlparse ("parquet:" ++ location)
     = Ok (Urllib.mkParseResult "parquet" "" location "" "").
Proof.
  intros Hplain Hprefix.
  pose proof (contains_plain _ "?" Hplain) as Hq.
  pose proof (contains_plain _ "#" Hplain) as Hf.
  pose proof (contains_plain _ (Py.chr 9) Hplain) as H9.
  pose proof (contains_plain _ (Py.chr 10) Hplain) as H10.
  pose proof (contains_plain _ (Py.chr 13) Hplain) as H13.
  simpl in Hq, Hf, H9, H10, H13.
  specialize (Hq ltac:(tauto)). specialize (Hf ltac:(tauto)).
  specialize (H9 ltac:(tauto)). specialize (H10 ltac:(tauto)).
  specialize (H13 ltac:(tauto)).
  unfold Urllib.urlparse. simpl.
  rewrite !(remove_char_absent _ location) by assumption. simpl.
  assert (Hrest : (match location with
                   | String "/" (String "/" after) =>
                       let '(nl, rest) := Urllib.splitnetloc after in
                       if xorb (Py.contains "[" nl) (Py.contains "]" nl)
                       then Raise (ValueError "Invalid IPv6 URL")
                       else Ok (nl, rest)
                   | _ => Ok (EmptyString, location)
                   end) = Ok (EmptyString, location)).
  { clear - Hprefix.
    destruct location as [|c1 r1]; [reflexivity|].
    destruct (Ascii.eqb_spec c1 "/") as [->|Hc1];
      [|destruct c1 as [[] [] [] [] [] [] [] []]; try reflexivity; congruence].
    destruct r1 as [|c2 r2]; [reflexivity|].
    destruct (Ascii.eqb_spec c2 "/") as [->|Hc2]; [simpl in Hprefix; destruct r2; discriminate Hprefix|].
    destruct c2 as [[] [] [] [] [] [] [] []]; try reflexivity; congruence. }
  split; rewrite Hrest; simpl; rewrite (partition_absent "#") by assumption;
    rewrite (partition_absent "?") by assumption; reflexivity.
Qed.

(** The same with an empty authority in front of an absolute path. *)
Lemma urlparse_absolute_path (location : string) :
  plain_location location = true ->
  String.prefix "/" location = true ->
  Urllib.urlparse ("csv://" ++ location)
  = Ok (Urllib.mkParseResult "csv" "" location "" "")
  /\ Urllib.urlparse ("parquet://" ++ location)
     = Ok (Urllib.mkParseResult "parquet" "" location "" "").
Proof.
  intros Hplain Hprefix.
  pose proof (contains_plain _ "?" Hplain) as Hq.
  pose proof (contains_plain _ "#" Hplain) as Hf.
  pose proof (contains_plain _ (Py.chr 9) Hplain) as H9.
  pose proof (contains_plain _ (Py.chr 10) Hplain) as H10.
  pose proof (contains_plain _ (Py.chr 13) Hplain) as H13.
  simpl in Hq, Hf, H9, H10, H13.
  specialize (Hq ltac:(tauto)). specialize (Hf ltac:(tauto)).
  specialize (H9 ltac:(tauto)). specialize (H10 ltac:(tauto)).
  specialize (H13 ltac:(tauto)).
  unfold Urllib.urlparse. simpl.
  rewrite !(remove_char_absent _ location) by assumption. simpl.
  assert (Hnetloc : Urllib.splitnetloc location = ("", location)).
  { clear - Hprefix. destruct location as [|c r]; [discriminate Hprefix|].
    destruct c as [[] [] [] [] [] [] [] []];
      try (cbv in Hprefix; discriminate Hprefix); reflexivity. }
  split; rewrite Hnetloc; simpl; rewrite (partition_absent "#") by assumption;
    rewrite (partition_absent "?") by assumption; reflexivity.
Qed.

Variable parse_schema : Value -> result DataType.

(** X13.  A file location without [?], [#], TAB, LF or CR is read from as it
    is written.  After [csv:] or [parquet:], a location that does not start
    with two slashes (a plain path, or a path with its own protocol such as
    [s3://bucket/dir]) is the path handed to the engine; so is an absolute path
    after [csv://] or [parquet://].  Nothing else is passed, but the format
    for parquet, and no coalesce is asked for. *)
Theorem by_url_file_location :
  forall location,
    plain_location location = true ->
    (String.prefix "//" location = false ->
     run (by_url parse_schema ("csv:" ++ location))
     = ([read_csv [("path", VStr location)]],
        Ok (mkDataFrame (from_csv [("path", VStr location)]) []))
     /\ run (by_url parse_schema ("parquet:" ++ location))
        = ([read_load [("path", VStr location); ("format", VStr "parquet")]],
           Ok (mkDataFrame
                 (from_load [("path", VStr location); ("format", VStr "parquet")]) [])))
    /\ (String.prefix "/" location = true ->
        run (by_url parse_schema ("csv://" ++ location))
        = ([read_csv [("path", VStr location)]],
           Ok (mkDataFrame (from_csv [("path", VStr location)]) []))
        /\ run (by_url parse_schema ("parquet://" ++ location))
           = ([read_load [("path", VStr location); ("format", VStr "parquet")]],
              Ok (mkDataFrame
                    (from_load [("path", VStr location); ("format", VStr "parquet")]) []))).
Proof.
  intros location Hplain. split; intros Hprefix.
  - destruct (urlparse_location _ Hplain Hprefix) as [Hcsv Hparquet].
    unfold run.
    rewrite (by_url_run parse_schema _ _ _ Hcsv), (by_url_run parse_schema _ _ _ Hparquet).
    split; reflexivity.
  - destruct (urlparse_absolute_path _ Hplain Hprefix) as [Hcsv Hparquet].
    unfold run.
    rewrite (by_url_run parse_schema _ _ _ Hcsv), (by_url_run parse_schema _ _ _ Hparquet).
    split; reflexivity.
Qed.

End FileUrls.

(* ===================================================================== *)
(** ** kafka: further properties *)
(* ===================================================================== *)

Section KafkaProperties.

(** X14.  When [kafka] returns, the frame comes from a reader of format
    [kafka] whose settings are, in this order: the bootstrap servers, the
    subscription, the two offsets if [offset_ranges] is not empty, and then
    the caller's options, so that these are set last.  The engine saw the
    format, one [option] call per setting, the load, and after it exactly the
    calls recorded on the frame. *)
Theorem kafka_reader_configuration :
  forall host topic offset_ranges key_deserializer value_deserializer schema port
         parallelism options include_meta_cols log df,
    run (kafka host topic offset_ranges key_deserializer value_deserializer schema
           port parallelism options include_meta_cols) = (log, Ok df) ->
    let settings := kafka_settings host port topic offset_ranges options in
    origin df = from_reader (mkReader "kafka" settings)
    /\ log = (read_format "kafka"
              :: map (fun kv => reader_option (fst kv) (snd kv)) settings
              ++ reader_load :: applied df)%list.
Proof.
  intros host topic offset_ranges kd vd schema port par opts meta log df.
  unfold kafka_settings, offsets_options.
  kafka_start topic offset_ranges;
    try (intros H; discriminate H);
    kafka_cases kd vd schema meta par;
    intros H; try discriminate H;
    injection H as <- <-; simpl;
    (split; [reflexivity|]);
    rewrite <- ?app_assoc; reflexivity.
Qed.

Lemma kafka_reader_configuration_witness :
  origin (mkDataFrame
            (from_reader (mkReader "kafka"
               [ ("kafka.bootstrap.servers", VStr "broker:9092");
                 ("subscribe", VStr "a,b");
                 ("startingOffsets", VStr "earliest") ]))
            [select ["key"; "value"]])
  = from_reader (mkReader "kafka"
      (kafka_settings "broker" 9092 (TopicList ["a"; "b"]) (Some [])
         (Some [("startingOffsets", VStr "earliest")])))
  /\ [ read_format "kafka";
       reader_option "kafka.bootstrap.servers" (VStr "broker:9092");
       reader_option "subscribe" (VStr "a,b");
       reader_option "startingOffsets" (VStr "earliest");
       reader_load;
       select ["key"; "value"] ]
     = (read_format "kafka"
        :: map (fun kv => reader_option (fst kv) (snd kv))
             (kafka_settings "broker" 9092 (TopicList ["a"; "b"]) (Some [])
                (Some [("startingOffsets", VStr "earliest")]))
        ++ reader_load
           :: applied (mkDataFrame
                (from_reader (mkReader "kafka"
                   [ ("kafka.bootstrap.servers", VStr "broker:9092");
                     ("subscribe", VStr "a,b");
                     ("startingOffsets", VStr "earliest") ]))
                [select ["key"; "value"]]))%list.
Proof.
  apply (kafka_reader_configuration "broker" (TopicList ["a"; "b"]) (Some []) None None
           None 9092 VNone (Some [("startingOffsets", VStr "earliest")]) None).
  reflexivity.
Defined.

Lemma field_type_none (name : string) : field_type None name = None.
Proof. reflexivity. Qed.

(** Closes one case of the analysis of when [kafka] returns. *)
Ltac kafka_returns_case :=
  split;
  [ intros (?log & ?df & H);
    first [ discriminate H
          | repeat split; simpl; try exact I; try lia; intros; congruence ]
  | intros (Ht & Hp & Hk & Hv);
    first [ do 2 eexists; reflexivity
          | exfalso;
            first [ apply Ht; reflexivity
                  | apply Hk; [discriminate|assumption || reflexivity]
                  | apply Hv; [discriminate|assumption || reflexivity]
                  | simpl in Hp; lia ] ] ].

(** X15.  [kafka] returns exactly when the topic is given (a string or a
    list), the offset-ranges check is passed, and each deserializer supplied
    finds its field in the schema.  Short of a failure of the engine, there
    is no other way for it to raise. *)
Theorem kafka_returns_iff :
  forall host topic offset_ranges key_deserializer value_deserializer schema port
         parallelism options include_meta_cols,
    (exists log df,
        run (kafka host topic offset_ranges key_deserializer value_deserializer schema
               port parallelism options include_meta_cols) = (log, Ok df))
    <-> (topic <> TopicNone
         /\ passes_offsets_check topic offset_ranges
         /\ (key_deserializer <> None -> field_type schema "key" <> None)
         /\ (value_deserializer <> None -> field_type schema "value" <> None)).
Proof.
  intros host topic offset_ranges kd vd schema port par opts meta.
  unfold run, kafka. eff_simpl.
  destruct topic as [t|l|]; simpl; [| |kafka_returns_case].
  - destruct offset_ranges as [[|r rs]|]; simpl;
      rewrite ?set_options_run; simpl; rewrite ?get_schema_spec;
      destruct kd, vd, schema as [fields|]; simpl; rewrite ?field_type_none;
      try destruct (field_type (Some fields) "key") eqn:Ek; simpl;
      try destruct (field_type (Some fields) "value") eqn:Ev; simpl;
      destruct meta as [[|]|], (truthy par); simpl; kafka_returns_case.
  - destruct offset_ranges as [[|r rs]|]; simpl;
      [ | destruct (1 <? length l)%nat eqn:Hlen;
          [apply Nat.ltb_lt in Hlen|apply Nat.ltb_ge in Hlen]; simpl | ];
      rewrite ?set_options_run; simpl; rewrite ?get_schema_spec;
      destruct kd, vd, schema as [fields|]; simpl; rewrite ?field_type_none;
      try destruct (field_type (Some fields) "key") eqn:Ek; simpl;
      try destruct (field_type (Some fields) "value") eqn:Ev; simpl;
      destruct meta as [[|]|], (truthy par); simpl; kafka_returns_case.
Qed.

(** Closes one case of the analysis of a failing deserializer. *)
Ltac kafka_error_case Hmissing :=
  first [ exfalso; destruct Hmissing as [[H1 H2]|[H1 H2]]; congruence
        | do 3 eexists; split; [reflexivity|]; rewrite <- ?app_assoc; reflexivity ].

(** X16.  A deserializer that does not find its field (or any schema) makes
    [kafka] raise [InvalidArgumentError] only after the reader has been
    configured and loaded: the load call is in the log when the error
    reaches the caller. *)
Theorem kafka_schema_error_after_load :
  forall host topic offset_ranges key_deserializer value_deserializer schema port
         parallelism options include_meta_cols,
    topic <> TopicNone ->
    passes_offsets_check topic offset_ranges ->
    (key_deserializer <> None /\ field_type schema "key" = None)
    \/ (value_deserializer <> None /\ field_type schema "value" = None) ->
    exists log msg rest,
      run (kafka host topic offset_ranges key_deserializer value_deserializer schema
             port parallelism options include_meta_cols)
      = (log, Raise (InvalidArgumentError msg))
      /\ log = (read_format "kafka"
                :: map (fun kv => reader_option (fst kv) (snd kv))
                     (kafka_settings host port topic offset_ranges options)
                ++ reader_load :: rest)%list.
Proof.
  intros host topic offset_ranges kd vd schema port par opts meta Htopic Hpass Hmissing.
  unfold run, kafka, kafka_settings, offsets_options. eff_simpl.
  destruct topic as [t|l|]; simpl; [| |congruence].
  - destruct offset_ranges as [[|r rs]|]; simpl;
      rewrite ?set_options_run; simpl; rewrite ?get_schema_spec;
      destruct kd, vd, schema as [fields|]; simpl; rewrite ?field_type_none in *;
      try destruct (field_type (Some fields) "key") eqn:Ek; simpl;
      try destruct (field_type (Some fields) "value") eqn:Ev; simpl;
      kafka_error_case Hmissing.
  - destruct offset_ranges as [[|r rs]|]; simpl;
      [ | apply Nat.leb_le in Hpass; rewrite Nat.ltb_antisym, Hpass; simpl | ];
      rewrite ?set_options_run; simpl; rewrite ?get_schema_spec;
      destruct kd, vd, schema as [fields|]; simpl; rewrite ?field_type_none in *;
      try destruct (field_type (Some fields) "key") eqn:Ek; simpl;
      try destruct (field_type (Some fields) "value") eqn:Ev; simpl;
      kafka_error_case Hmissing.
Qed.

Lemma get_set_offsets_same (k v : Z) (d : list (Z * Z)) :
  Dict.get Z.eqb k (Dict.set Z.eqb k v d) = Some v.
Proof.
  induction d as [|[k' v'] r IH]; simpl.
  - now rewrite Z.eqb_refl.
  - destruct (k' =? k) eqn:E; simpl; rewrite E; auto.
Qed.

Lemma get_set_offsets_other (k k' v : Z) (d : list (Z * Z)) :
  k <> k' -> Dict.get Z.eqb k' (Dict.set Z.eqb k v d) = Dict.get Z.eqb k' d.
Proof.
  intros Hne. induction d as [|[k0 v0] r IH]; simpl.
  - destruct (Z.eqb_spec k k'); congruence.
  - destruct (Z.eqb_spec k0 k); simpl.
    + subst. destruct (Z.eqb_spec k k'); congruence.
    + destruct (k0 =? k'); auto.
Qed.

Lemma get_update_offsets_other (k : Z) (items d : list (Z * Z)) :
  ~ In k (map fst items) ->
  Dict.get Z.eqb k (Dict.update Z.eqb d items) = Dict.get Z.eqb k d.
Proof.
  revert d. unfold Dict.update.
  induction items as [|[k0 v0] r IH]; intros d Hnotin; simpl in *; [reflexivity|].
  rewrite IH by tauto. apply get_set_offsets_other. tauto.
Qed.

(** X17.  When several ranges of [offset_ranges] name the same partition,
    the last one decides: the offset recorded for a partition is that of the
    last range given for it. *)
Theorem get_offsets_last_wins :
  forall before offset after which,
    (forall later, In later after -> item later 0 <> item offset 0) ->
    Dict.get Z.eqb (item offset 0) (get_offsets (before ++ offset :: after) which)
    = Some (item offset which).
Proof.
  intros before offset after which Hlast.
  unfold get_offsets, Dict.of_pairs, Dict.update.
  rewrite map_app, fold_left_app. simpl.
  match goal with
  | |- Dict.get _ _ (fold_left ?f ?l ?d) = _ =>
      change (fold_left f l d) with (Dict.update Z.eqb d l)
  end.
  rewrite get_update_offsets_other.
  - apply get_set_offsets_same.
  - rewrite map_map. simpl. intros Hin. apply in_map_iff in Hin.
    destruct Hin as (later & Heq & Hin). exact (Hlast later Hin Heq).
Qed.

Lemma get_offsets_last_wins_witness :
  (forall later, In later [(1, 0, 5)] -> item later 0 <> item (0, 30, 40) 0)
  /\ Dict.get Z.eqb (item (0, 30, 40) 0)
       (get_offsets ([(0, 10, 20)] ++ (0, 30, 40) :: [(1, 0, 5)]) 1)
     = Some (item (0, 30, 40) 1).
Proof.
  assert (H : forall later, In later [(1, 0, 5)] -> item later 0 <> item (0, 30, 40) 0).
  { intros later [<-|[]]. simpl. discriminate. }
  split; [exact H|].
  exact (get_offsets_last_wins [(0, 10, 20)] (0, 30, 40) [(1, 0, 5)] 1 H).
Defined.

End KafkaProperties.

(* ===================================================================== *)
(** ** The further properties on concrete inputs *)
(* ===================================================================== *)

Lemma query_values_not_blank_witness :
  dget "user" (query_dict (Urllib.mkParseResult "mysql" "mysql.docker"
                             "/sparkly_test/test_writer" "user=root&password=" ""))
  = Some (VStr "root")
  /\ dget "password" (query_dict (Urllib.mkParseResult "mysql" "mysql.docker"
                                    "/sparkly_test/test_writer" "user=root&password=" ""))
     = None
  /\ exists s, VStr "root" = VStr s /\ s <> "".
Proof.
  split; [reflexivity|]. split; [reflexivity|].
  exact (query_values_not_blank
           (Urllib.mkParseResult "mysql" "mysql.docker" "/sparkly_test/test_writer"
              "user=root&password=" "")
           "user" (VStr "root") eq_refl).
Defined.

Lemma by_url_failure_before_engine_witness :
  exists log e,
    run (by_url atomic_schema "parquet:///tmp/data?path=elsewhere") = (log, Raise e)
    /\ log = [].
Proof.
  do 2 eexists.
  assert (H : run (by_url atomic_schema "parquet:///tmp/data?path=elsewhere")
              = ([], Raise (TypeError "got multiple values for keyword argument 'path'")))
    by reflexivity.
  split; [exact H|].
  exact (by_url_failure_before_engine atomic_schema _ _ _ H).
Defined.

Lemma by_url_success_log_witness :
  exists parsed_url log df,
    Urllib.urlparse "mysql://host/db/tbl?parallelism=4" = Ok parsed_url
    /\ run (by_url atomic_schema "mysql://host/db/tbl?parallelism=4") = (log, Ok df)
    /\ exists c,
         is_load c = true
         /\ log = c :: coalesce_calls (requested_parallelism parsed_url)
         /\ applied df = coalesce_calls (requested_parallelism parsed_url)
         /\ existsb is_load (coalesce_calls (requested_parallelism parsed_url)) = false.
Proof.
  do 3 eexists.
  split; [cbv; reflexivity|]. split; [cbv; reflexivity|].
  exact (by_url_success_log atomic_schema "mysql://host/db/tbl?parallelism=4"
           _ _ _ eq_refl eq_refl).
Defined.

Lemma by_url_reserved_keys_consumed_witness :
  exists parsed_url log df,
    Urllib.urlparse "cassandra://host/ks/tbl?consistency=ONE&parallelism=3" = Ok parsed_url
    /\ run (by_url atomic_schema "cassandra://host/ks/tbl?consistency=ONE&parallelism=3")
       = (log, Ok df)
    /\ Urllib.scheme parsed_url <> "table"
    /\ exists c options rest,
         log = c :: rest
         /\ call_options c = Some options
         /\ forall k, In k (reserved_keys (Urllib.scheme parsed_url)) -> k <> "schema" ->
                      dget k options = None.
Proof.
  do 3 eexists.
  split; [cbv; reflexivity|]. split; [cbv; reflexivity|].
  assert (Hscheme : "cassandra" <> "table") by discriminate.
  split; [exact Hscheme|].
  exact (by_url_reserved_keys_consumed atomic_schema
           "cassandra://host/ks/tbl?consistency=ONE&parallelism=3"
           _ _ _ eq_refl eq_refl Hscheme).
Defined.

Lemma by_url_passthrough_witness :
  exists parsed_url log df,
    Urllib.urlparse
      "elastic://elastic.docker/sparkly_test/test_writer?es.read.metadata=false"
    = Ok parsed_url
    /\ run (by_url atomic_schema
              "elastic://elastic.docker/sparkly_test/test_writer?es.read.metadata=false")
       = (log, Ok df)
    /\ Urllib.scheme parsed_url <> "table"
    /\ exists c options rest,
         log = c :: rest
         /\ call_options c = Some options
         /\ forall k v, dget k (query_dict parsed_url) = Some v ->
                        ~ In k (reserved_keys (Urllib.scheme parsed_url)) ->
                        dget k options = Some v.
Proof.
  do 3 eexists.
  split; [cbv; reflexivity|]. split; [cbv; reflexivity|].
  assert (Hscheme : "elastic" <> "table") by discriminate.
  split; [exact Hscheme|].
  exact (by_url_passthrough atomic_schema
           "elastic://elastic.docker/sparkly_test/test_writer?es.read.metadata=false"
           _ _ _ eq_refl eq_refl Hscheme).
Defined.


Lemma by_url_cassandra_options_witness :
  exists parsed_url log df,
    Urllib.urlparse "cassandra://host:9042/sparkly_test/test_writer?consistency=ONE"
    = Ok parsed_url
    /\ Urllib.scheme parsed_url = "cassandra"
    /\ run (by_url atomic_schema
              "cassandra://host:9042/sparkly_test/test_writer?consistency=ONE")
       = (log, Ok df)
    /\ exists options rest,
         log = read_load options :: rest
         /\ dget "keyspace" options = Some (VStr "sparkly_test")
         /\ dget "table" options = Some (VStr "test_writer")
         /\ dget "spark.cassandra.input.consistency.level" options = Some (VStr "ONE")
         /\ dget "spark.cassandra.connection.port" options = Some (VStr "9042").
Proof.
  do 3 eexists.
  split; [cbv; reflexivity|]. split; [reflexivity|]. split; [cbv; reflexivity|].
  destruct (by_url_cassandra_options atomic_schema
              "cassandra://host:9042/sparkly_test/test_writer?consistency=ONE"
              _ _ _ eq_refl eq_refl eq_refl)
    as (options & rest & Hlog & Hk & Ht & Hc & Hp).
  exists options, rest.
  split; [exact Hlog|]. split; [exact (Hk eq_refl)|]. split; [exact (Ht eq_refl)|].
  split; [exact (Hc eq_refl)|exact (Hp eq_refl)].
Defined.

Lemma by_url_elastic_options_witness :
  exists parsed_url log df,
    Urllib.urlparse "elastic://es.host/es_index/es_type?q=views:10&fields=uid,title"
    = Ok parsed_url
    /\ Urllib.scheme parsed_url = "elastic"
    /\ run (by_url atomic_schema
              "elastic://es.host/es_index/es_type?q=views:10&fields=uid,title")
       = (log, Ok df)
    /\ exists options rest,
         log = read_load options :: rest
         /\ dget "path" options = Some (VStr "es_index/es_type")
         /\ dget "es.query" options = Some (VStr "?q=views:10")
         /\ dget "es.read.field.include" options = Some (VStr "uid,title")
         /\ dget "es.read.metadata" options = Some (VStr "true").
Proof.
  do 3 eexists.
  split; [cbv; reflexivity|]. split; [reflexivity|]. split; [cbv; reflexivity|].
  destruct (by_url_elastic_options atomic_schema
              "elastic://es.host/es_index/es_type?q=views:10&fields=uid,title"
              _ _ _ eq_refl eq_refl eq_refl)
    as (options & rest & Hlog & Hp & Hq & Hf & Hm).
  exists options, rest.
  split; [exact Hlog|]. split; [exact (Hp eq_refl)|]. split; [exact (Hq eq_refl)|].
  split; [exact (Hf eq_refl)|exact (Hm eq_refl)].
Defined.


Lemma by_url_mysql_options_witness :
  exists parsed_url log df,
    Urllib.urlparse "mysql://mysql.docker/sparkly_test/test_writer?user=root&password="
    = Ok parsed_url
    /\ Urllib.scheme parsed_url = "mysql"
    /\ run (by_url atomic_schema
              "mysql://mysql.docker/sparkly_test/test_writer?user=root&password=")
       = (log, Ok df)
    /\ exists options rest,
         log = read_load options :: rest
         /\ dget "url" options = Some (VStr "jdbc:mysql://mysql.docker/sparkly_test")
         /\ dget "dbtable" options = Some (VStr "test_writer")
         /\ dget "driver" options = Some (VStr "com.mysql.jdbc.Driver").
Proof.
  do 3 eexists.
  split; [cbv; reflexivity|]. split; [reflexivity|]. split; [cbv; reflexivity|].
  destruct (by_url_mysql_options atomic_schema
              "mysql://mysql.docker/sparkly_test/test_writer?user=root&password="
              _ _ _ eq_refl eq_refl eq_refl)
    as (options & rest & Hlog & Hu & Ht & Hd).
  exists options, rest.
  split; [exact Hlog|]. split; [exact (Hu eq_refl)|].
  split; [exact (Ht eq_refl)|exact (Hd eq_refl)].
Defined.



Lemma by_url_file_location_witness :
  plain_location "s3://some-bucket/some_directory" = true
  /\ String.prefix "//" "s3://some-bucket/some_directory" = false
  /\ run (by_url atomic_schema ("csv:" ++ "s3://some-bucket/some_directory"))
     = ([read_csv [("path", VStr "s3://some-bucket/some_directory")]],
        Ok (mkDataFrame (from_csv [("path", VStr "s3://some-bucket/some_directory")]) [])).
Proof.
  split; [reflexivity|]. split; [reflexivity|].
  exact (proj1 (proj1 (by_url_file_location atomic_schema
                         "s3://some-bucket/some_directory" eq_refl) eq_refl)).
Defined.

Lemma kafka_schema_error_after_load_witness :
  TopicStr "t" <> TopicNone
  /\ passes_offsets_check (TopicStr "t") None
  /\ (Some as_text <> None /\ field_type None "key" = None)
  /\ exists log msg rest,
       run (kafka "broker" (TopicStr "t") None (Some as_text) None None 9092 VNone
              None None)
       = (log, Raise (InvalidArgumentError msg))
       /\ log = (read_format "kafka"
                 :: map (fun kv => reader_option (fst kv) (snd kv))
                      (kafka_settings "broker" 9092 (TopicStr "t") None None)
                 ++ reader_load :: rest)%list.
Proof.
  assert (Htopic : TopicStr "t" <> TopicNone) by discriminate.
  assert (Hpass : passes_offsets_check (TopicStr "t") None) by exact I.
  assert (Hmissing : Some as_text <> None /\ field_type None "key" = None)
    by (split; [discriminate|reflexivity]).
  split; [exact Htopic|]. split; [exact Hpass|]. split; [exact Hmissing|].
  exact (kafka_schema_error_after_load "broker" (TopicStr "t") None (Some as_text) None
           None 9092 VNone None None Htopic Hpass (or_introl Hmissing)).
Defined.

(* ===================================================================== *)
(** ** csv: the schema parameter *)
(* ===================================================================== *)

Section CsvSchema.

Variable parse_schema : Value -> result DataType.

Arguments coerce_parallelism : simpl never.
Arguments query_dict : simpl never.
Arguments kwargs : simpl never.
Arguments int : simpl never.
Arguments get_or_none : simpl never.
Arguments requested_parallelism : simpl never.


End CsvSchema.

